(** * Label-Master-3000: serial number allocation and indexing engine

    A shallow embedding of [business_logic.py]: the component registry
    ([GestioneComponenti]), the serial allocator ([GestoreSerialNumber]) and
    the batch run [GeneratoreExcel.crea_documento_con_componenti], followed
    by the properties of the specification stated and settled on them. *)

From Stdlib Require Import ZArith Lia Ascii String.
From stdpp Require Import base option list strings gmap.

Local Open Scope Z_scope.

(** ** Python primitives used by the source *)

Module Py.

(** Exceptions the modelled code can raise. *)
Inductive exn : Type :=
| ValueError (msg : string)
| IndexError
| KeyError (key : string).

Inductive result (A : Type) : Type :=
| Ok (a : A)
| Raise (e : exn).
Global Arguments Ok {A} a.
Global Arguments Raise {A} e.

(** Truth value of an [Optional[str]]: [None] and [''] are falsy. *)
Definition truthy (o : option string) : bool :=
  match o with
  | None => false
  | Some s => negb (String.eqb s "")
  end.

(** [a if a else b] on optional strings. *)
Definition or_else (a b : option string) : option string :=
  if truthy a then a else b.

(** [range(n)]. *)
Definition range (n : Z) : list Z := Z.of_nat <$> seq 0 (Z.to_nat n).

(** [l[i]]: a negative index counts from the end, anything outside
    raises [IndexError]. *)
Definition getitem {A} (l : list A) (i : Z) : result A :=
  let n := Z.of_nat (length l) in
  let j := if i <? 0 then i + n else i in
  if (0 <=? j) && (j <? n) then
    match l !! Z.to_nat j with
    | Some a => Ok a
    | None => Raise IndexError
    end
  else Raise IndexError.

Definition digit_char (d : Z) : ascii := ascii_of_nat (48 + Z.to_nat d).

(** Decimal digits of a natural number, most significant first. *)
Fixpoint str_aux (fuel : nat) (n : Z) (acc : string) : string :=
  match fuel with
  | O => acc
  | S f =>
      let acc' := String (digit_char (n mod 10)) acc in
      if n <? 10 then acc' else str_aux f (n / 10) acc'
  end.

Definition str_abs (n : Z) : string :=
  str_aux (S (Z.to_nat (Z.log2 (Z.abs n)))) (Z.abs n) "".

(** [str(n)] for an [int]. *)
Definition str (n : Z) : string :=
  if n <? 0 then String "-" (str_abs n) else str_abs n.

Fixpoint zeros (k : nat) : string :=
  match k with
  | O => ""
  | S k' => String "0" (zeros k')
  end.

(** [f"{n:0<width>d}"]: sign first, then zeros up to the width, then
    the digits; a number wider than the field is printed in full. *)
Definition format_0d (width : nat) (n : Z) : string :=
  let ds := str_abs n in
  if n <? 0 then
    String "-" (zeros (width - 1 - String.length ds) +:+ ds)
  else zeros (width - String.length ds) +:+ ds.

End Py.

Import Py.

(** ** State and exceptions

    A method is a function from the state of its object to an outcome and
    the state it leaves behind: an exception does not undo the mutations
    made before it. *)

Definition M (St A : Type) : Type := St -> result A * St.

Definition ret {St A} (a : A) : M St A := fun s => (Ok a, s).

Definition raise {St A} (e : exn) : M St A := fun s => (Raise e, s).

Definition bind {St A B} (c : M St A) (k : A -> M St B) : M St B :=
  fun s =>
    match c s with
    | (Ok a, s') => k a s'
    | (Raise e, s') => (Raise e, s')
    end.

Definition get {St} : M St St := fun s => (Ok s, s).

Definition modify {St} (f : St -> St) : M St unit := fun s => (Ok tt, f s).

Notation "'let*' x ':=' c 'in' k" := (bind c (fun x => k))
  (at level 10, x pattern, c at level 100, k at level 200).

Notation "c ';;' k" := (bind c (fun _ => k))
  (at level 100, k at level 200, right associativity).

(** [for x in l: acc = body(x, acc)], stopping at the first exception. *)
Fixpoint for_each {St A B} (l : list A) (body : A -> B -> M St B) (acc : B)
  : M St B :=
  match l with
  | [] => ret acc
  | x :: rest => let* acc' := body x acc in for_each rest body acc'
  end.

(** ** Data model *)

(** [inizio_indicizzazione_prefisso]: [None], an [int] or a list of
    [int]. *)
Inductive IndexPolicy : Type :=
| PNone
| PInt (o : Z)
| PList (l : list Z).

(** [datetime.now()]: the fields the allocator reads.  A [datetime] always
    has its month between 1 and 12. *)
Record datetime : Type := mk_datetime {
  year : Z;
  month : Z;
  isoformat : string;
  month_ok : Is_true ((1 <=? month) && (month <=? 12))
}.

(** An entry of the component database, with the six keys
    [aggiungi_componente] and [modifica_componente] write. *)
Module Componente.
Record t : Type := mk {
  nome : string;
  code_12nc : string;
  sn_iniziale : option Z;
  prefisso_tipo_scheda : option string;
  indicizzazione : bool;
  inizio_indicizzazione_prefisso : IndexPolicy
}.
End Componente.

(** A value of the [stato] dictionary of the allocator. *)
Module Stato.
Record t : Type := mk {
  ultimo_sn : Z;
  data_ultimo_utilizzo : string;
  code_12nc : option string
}.
End Stato.

(** A component of a run, as the caller passes it.  A key read with
    [.get(k, default)] is optional; a missing ['nome'] reads as [''] . *)
Module Richiesta.
Record t : Type := mk {
  nome : string;
  quantita : option Z;
  sn_iniziale : option Z;
  prefisso_tipo_scheda : option string;
  code_12nc : option string;
  indicizzazione : option bool;
  inizio_indicizzazione_prefisso : IndexPolicy
}.
End Richiesta.

(** An entry of [componenti_sn_calcolati]. *)
Module CompInfo.
Record t : Type := mk {
  nome : string;
  quantita : Z;
  prossimo_sn : Z;
  prefisso_tipo_scheda : option string;
  code_12nc : option string;
  indicizzazione : bool;
  inizio_indicizzazione_prefisso : IndexPolicy
}.
End CompInfo.

(** A data row of the sheet "Componenti per Bus", columns 1 to 9. *)
Module Riga.
Record t : Type := mk {
  fornitore : string;
  bolla_produzione : string;
  bolla_vendita : string;
  descrizione : string;
  code_12nc : option string;
  sn : string;
  bus : string;
  tipo_scheda : string;
  sn_fornitore : string
}.
End Riga.

(** The registry object: the list in memory, the JSON file ([None] while
    it does not exist) and the number of writes attempted so far. *)
Module GC.
Record t : Type := mk {
  componenti : list Componente.t;
  file_componenti : option (list Componente.t);
  scritture : nat
}.
End GC.

(** The allocator object: the dictionary in memory, the JSON file, the
    number of allocations started and of writes attempted so far. *)
Module GSN.
Record t : Type := mk {
  stato : gmap string Stato.t;
  file_stato : option (gmap string Stato.t);
  chiamate : nat;
  scritture : nat
}.
End GSN.

(** The generator object. *)
Module GE.
Record t : Type := mk {
  workbook : option (list Riga.t);
  gestore_sn : GSN.t;
  gestione_componenti : option GC.t
}.
End GE.

(** ** The operations

    The world outside the program is a parameter: [now k] is what the
    [k]-th call of [datetime.now()] returns, and the [k]-th attempt to open
    a store for writing succeeds when [disco_stato k] (the serial state
    file) or [disco_componenti k] (the component database) holds.  A failed
    [open] raises [OSError] inside the [try] and leaves the file as it
    was.

    A write that fails after [open(..., 'w')] has truncated the file is
    not among these outcomes: a statement below about the contents of a
    file after a write is about a write that went through, or names the
    failed [open] it is about. *)

Section Operazioni.

Variable now : nat -> datetime.
Variable disco_stato : nat -> bool.
Variable disco_componenti : nat -> bool.

(** *** GestioneComponenti *)

(** [try: json.dump(self.componenti, f) except Exception: print(...)]. *)
Definition _salva_componenti (self : GC.t) : GC.t :=
  GC.mk (GC.componenti self)
        (if disco_componenti (GC.scritture self)
         then Some (GC.componenti self)
         else GC.file_componenti self)
        (S (GC.scritture self)).

Definition cerca_componente_per_nome (self : GC.t) (nome : string)
  : option Componente.t :=
  snd <$> list_find (fun comp => Componente.nome comp = nome)
                    (GC.componenti self).

Definition aggiungi_componente (nome code_12nc : string)
    (sn_iniziale : option Z) (prefisso_tipo_scheda : option string)
    (indicizzazione : bool) (inizio_indicizzazione_prefisso : IndexPolicy)
  : M GC.t bool :=
  fun self =>
    match cerca_componente_per_nome self nome with
    | Some _ => (Ok false, self)
    | None =>
        let componente :=
          Componente.mk nome code_12nc sn_iniziale prefisso_tipo_scheda
                        indicizzazione inizio_indicizzazione_prefisso in
        (Ok true,
         _salva_componenti
           (GC.mk (GC.componenti self ++ [componente])
                  (GC.file_componenti self) (GC.scritture self)))
    end.

Definition modifica_componente (nome_originale nuovo_nome code_12nc : string)
    (sn_iniziale : option Z) (prefisso_tipo_scheda : option string)
    (indicizzazione : bool) (inizio_indicizzazione_prefisso : IndexPolicy)
  : M GC.t bool :=
  fun self =>
    match list_find (fun comp => Componente.nome comp = nome_originale)
                    (GC.componenti self) with
    | Some (i, _) =>
        let componente :=
          Componente.mk nuovo_nome code_12nc sn_iniziale
                        prefisso_tipo_scheda indicizzazione
                        inizio_indicizzazione_prefisso in
        (Ok true,
         _salva_componenti
           (GC.mk (<[i := componente]> (GC.componenti self))
                  (GC.file_componenti self) (GC.scritture self)))
    | None => (Ok false, self)
    end.

Definition elimina_componente (nome : string) : M GC.t bool :=
  fun self =>
    let lunghezza_iniziale := length (GC.componenti self) in
    let rimasti :=
      filter (fun c => Componente.nome c <> nome) (GC.componenti self) in
    let self' :=
      GC.mk rimasti (GC.file_componenti self) (GC.scritture self) in
    if (length rimasti <? lunghezza_iniziale)%nat
    then (Ok true, _salva_componenti self')
    else (Ok false, self').

Definition aggiorna_sn_iniziale (nome : string) (nuovo_sn : Z)
  : M GC.t bool :=
  fun self =>
    match list_find (fun comp => Componente.nome comp = nome)
                    (GC.componenti self) with
    | Some (i, comp) =>
        let comp' :=
          Componente.mk (Componente.nome comp) (Componente.code_12nc comp)
                        (Some nuovo_sn)
                        (Componente.prefisso_tipo_scheda comp)
                        (Componente.indicizzazione comp)
                        (Componente.inizio_indicizzazione_prefisso comp) in
        (Ok true,
         _salva_componenti
           (GC.mk (<[i := comp']> (GC.componenti self))
                  (GC.file_componenti self) (GC.scritture self)))
    | None => (Ok false, self)
    end.

Definition ottieni_nomi_componenti (self : GC.t) : list string :=
  Componente.nome <$> GC.componenti self.

(** *** GestoreSerialNumber *)

(** [_carica_stato]: without a readable file the state is empty. *)
Definition _carica_stato (file : option (gmap string Stato.t))
  : gmap string Stato.t :=
  default ∅ file.

(** [try: json.dump(self.stato, f) except Exception: print(...)]. *)
Definition _salva_stato : M GSN.t unit :=
  modify (fun self =>
    GSN.mk (GSN.stato self)
           (if disco_stato (GSN.scritture self)
            then Some (GSN.stato self)
            else GSN.file_stato self)
           (GSN.chiamate self)
           (S (GSN.scritture self))).

Definition lettere : list ascii :=
  ["A"; "B"; "C"; "D"; "E"; "F"; "G"; "H"; "I"; "J"; "K"; "L"]%char.

Definition _get_mese_lettera (mese : Z) : result ascii :=
  Py.getitem lettere (mese - 1).

(** [ora = datetime.now()]. *)
Definition datetime_now : M GSN.t datetime :=
  fun self =>
    (Ok (now (GSN.chiamate self)),
     GSN.mk (GSN.stato self) (GSN.file_stato self)
            (S (GSN.chiamate self)) (GSN.scritture self)).

Definition lift_result {St A} (r : result A) : M St A := fun s => (r, s).

Definition genera_serial_number (descrizione : string)
    (sn_iniziale : option Z) (code_12nc : option string)
  : M GSN.t string :=
  let* ora := datetime_now in
  let mese := month ora in
  let anno := year ora mod 100 in
  let* mese_lettera := lift_result (_get_mese_lettera mese) in
  let* self := get in
  let numero_incrementale :=
    match sn_iniziale with
    | Some v => v
    | None =>
        match GSN.stato self !! descrizione with
        | Some st => Stato.ultimo_sn st + 1
        | None => 0
        end
    end in
  let sn :=
    String mese_lettera
           (Py.format_0d 2 anno +:+ " " +:+ Py.format_0d 5 numero_incrementale) in
  modify (fun self =>
    GSN.mk (<[descrizione :=
                Stato.mk numero_incrementale (isoformat ora) code_12nc]>
              (GSN.stato self))
           (GSN.file_stato self) (GSN.chiamate self) (GSN.scritture self));;
  _salva_stato;;
  ret sn.

Definition get_ultimo_sn (self : GSN.t) (descrizione : string) : Z :=
  match GSN.stato self !! descrizione with
  | Some st => Stato.ultimo_sn st
  | None => -1
  end.

End Operazioni.

(** *** GeneratoreExcel *)

Section Generatore.

Variable now : nat -> datetime.
Variable disco_stato : nat -> bool.
Variable disco_componenti : nat -> bool.

(** A method of [self.gestore_sn] called from the generator. *)
Definition con_gestore_sn {A} (c : M GSN.t A) : M GE.t A :=
  fun self =>
    let (r, g) := c (GE.gestore_sn self) in
    (r, GE.mk (GE.workbook self) g (GE.gestione_componenti self)).

(** The pre-computation of one component: its part code and its first
    serial number of the run. *)
Definition calcola_sn (componente : Richiesta.t) : M GE.t CompInfo.t :=
  let nome_componente := Richiesta.nome componente in
  let sn_iniziale := Richiesta.sn_iniziale componente in
  let prefisso_tipo_scheda := Richiesta.prefisso_tipo_scheda componente in
  let code_12nc := Richiesta.code_12nc componente in
  let* self := get in
  let stato := GSN.stato (GE.gestore_sn self) in
  let* code_12nc_finale :=
    match stato !! nome_componente with
    | Some st => ret (Py.or_else code_12nc (Stato.code_12nc st))
    | None =>
        if negb (Py.truthy code_12nc) then
          raise (ValueError
            ("CODE 12NC è obbligatorio al primo inserimento del componente: "
             +:+ nome_componente))
        else ret code_12nc
    end in
  let prossimo_sn :=
    match sn_iniziale with
    | Some v => v
    | None =>
        match stato !! nome_componente with
        | Some st => Stato.ultimo_sn st + 1
        | None => 0
        end
    end in
  ret (CompInfo.mk nome_componente
         (default 1 (Richiesta.quantita componente))
         prossimo_sn prefisso_tipo_scheda code_12nc_finale
         (default true (Richiesta.indicizzazione componente))
         (Richiesta.inizio_indicizzazione_prefisso componente)).

(** The number appended to the card prefix for the element at position
    [elemento_idx] of its bus. *)
Definition numero_indic (inizio_indic : IndexPolicy) (elemento_idx : Z)
  : result Z :=
  match inizio_indic with
  | PList l =>
      if (0 <? Z.of_nat (length l)) then
        Py.getitem l (elemento_idx mod Z.of_nat (length l))
      else Ok (elemento_idx + 1)
  | PInt o => Ok (o + elemento_idx)
  | PNone => Ok (elemento_idx + 1)
  end.

Definition tipo_scheda (comp_info : CompInfo.t) (elemento_idx : Z)
  : result string :=
  match CompInfo.prefisso_tipo_scheda comp_info with
  | Some prefisso =>
      if Py.truthy (Some prefisso) then
        if CompInfo.indicizzazione comp_info then
          match numero_indic
                  (CompInfo.inizio_indicizzazione_prefisso comp_info)
                  elemento_idx with
          | Ok n => Ok (prefisso +:+ Py.str n)
          | Raise e => Raise e
          end
        else Ok prefisso
      else Ok ""
  | None => Ok ""
  end.

(** [sheet.cell(row=row_counter, ...)] for the nine columns, then
    [row_counter += 1]: one more row at the bottom of the sheet.  The
    values are those the sheet accepts; openpyxl refuses a string that
    holds a control character by raising, which ends the run there. *)
Definition scrivi_riga (riga : Riga.t) : M GE.t unit :=
  modify (fun self =>
    GE.mk ((fun righe => righe ++ [riga]) <$> GE.workbook self)
          (GE.gestore_sn self) (GE.gestione_componenti self)).

(** The body of the innermost loop. [primo_utilizzo] is the dictionary of
    the flags "not yet allocated in this run". *)
Definition elemento (fornitore bolla_produzione bolla_vendita : string)
    (bus_number : Z) (comp_info : CompInfo.t) (elemento_idx : Z)
    (primo_utilizzo : gmap string bool) : M GE.t (gmap string bool) :=
  let nome_componente := CompInfo.nome comp_info in
  let prossimo_sn := CompInfo.prossimo_sn comp_info in
  let code_12nc := CompInfo.code_12nc comp_info in
  let* primo :=
    match primo_utilizzo !! nome_componente with
    | Some b => ret b
    | None => raise (KeyError nome_componente)
    end in
  let* part_number :=
    con_gestore_sn
      (if primo : bool
       then genera_serial_number now disco_stato nome_componente
                                 (Some prossimo_sn) code_12nc
       else genera_serial_number now disco_stato nome_componente
                                 None None) in
  let primo_utilizzo' :=
    if primo : bool then <[nome_componente := false]> primo_utilizzo
    else primo_utilizzo in
  let* etichetta := lift_result (tipo_scheda comp_info elemento_idx) in
  scrivi_riga
    (Riga.mk fornitore bolla_produzione bolla_vendita nome_componente
             code_12nc part_number ("BUS " +:+ Py.str bus_number)
             etichetta "");;
  ret primo_utilizzo'.

(** The three nested loops: buses, components, elements. *)
Definition ciclo_componente (fornitore bolla_produzione bolla_vendita : string)
    (bus_number : Z) (comp_info : CompInfo.t)
  : gmap string bool -> M GE.t (gmap string bool) :=
  for_each (Py.range (CompInfo.quantita comp_info))
           (elemento fornitore bolla_produzione bolla_vendita
                     bus_number comp_info).

Definition ciclo_bus (fornitore bolla_produzione bolla_vendita : string)
    (bus_iniziale : Z) (componenti_sn_calcolati : list CompInfo.t)
    (bus_idx : Z)
  : gmap string bool -> M GE.t (gmap string bool) :=
  for_each componenti_sn_calcolati
           (ciclo_componente fornitore bolla_produzione bolla_vendita
                             (bus_iniziale + bus_idx)).

(** The synchronisation of one component of the run with the database. *)
Definition sincronizza_componente (stato : gmap string Stato.t)
    (componente : Richiesta.t) : M GC.t unit :=
  let nome_componente := Richiesta.nome componente in
  match stato !! nome_componente with
  | Some st =>
      let ultimo_sn := Stato.ultimo_sn st in
      let* gc := get in
      match cerca_componente_per_nome gc nome_componente with
      | Some comp_db =>
          modifica_componente disco_componenti
            nome_componente
            (Componente.nome comp_db)
            (Componente.code_12nc comp_db)
            (Some (ultimo_sn + 1))
            (Componente.prefisso_tipo_scheda comp_db)
            (Componente.indicizzazione comp_db)
            (Richiesta.inizio_indicizzazione_prefisso componente);;
          ret tt
      | None => ret tt
      end
  | None => ret tt
  end.

Definition sincronizza (componenti : list Richiesta.t) : M GE.t unit :=
  fun self =>
    match GE.gestione_componenti self with
    | Some gc =>
        let (r, gc') :=
          for_each componenti
            (fun componente _ =>
               sincronizza_componente
                 (GSN.stato (GE.gestore_sn self)) componente)
            tt gc in
        (r, GE.mk (GE.workbook self) (GE.gestore_sn self) (Some gc'))
    | None => (Ok tt, self)
    end.

(** The first loop over [componenti], which fills
    [componenti_sn_calcolati]. *)
Definition passo_precalcolo (componente : Richiesta.t)
    (calcolati : list CompInfo.t) : M GE.t (list CompInfo.t) :=
  let* comp_info := calcola_sn componente in
  ret (calcolati ++ [comp_info]).

Definition precalcolo (componenti : list Richiesta.t)
  : M GE.t (list CompInfo.t) :=
  for_each componenti passo_precalcolo [].

(** [{comp_info['nome']: True for comp_info in componenti_sn_calcolati}].
    The dictionary [elemento_globale] built next to it is never read. *)
Definition primo_utilizzo_iniziale (calcolati : list CompInfo.t)
  : gmap string bool :=
  foldl (fun d comp_info => <[CompInfo.nome comp_info := true]> d)
        ∅ calcolati.

Definition ciclo_principale (fornitore bolla_produzione bolla_vendita : string)
    (numero_bus bus_iniziale : Z) (componenti_sn_calcolati : list CompInfo.t)
  : M GE.t (gmap string bool) :=
  for_each (Py.range numero_bus)
           (ciclo_bus fornitore bolla_produzione bolla_vendita
                      bus_iniziale componenti_sn_calcolati)
           (primo_utilizzo_iniziale componenti_sn_calcolati).

(** The value returned stands for the document saved under [nome_file]:
    the data rows of the sheet, top to bottom.  A run that the sheet or
    [workbook.save] ends by an exception of their own is not among the
    runs of this definition. *)
Definition crea_documento_con_componenti
    (bolla_produzione bolla_vendita : string) (numero_bus : Z)
    (componenti : list Richiesta.t) (bus_iniziale : Z) (fornitore : string)
  : M GE.t (list Riga.t) :=
  if String.eqb bolla_produzione "" || String.eqb bolla_vendita "" then
    raise (ValueError
             "Bolla Produzione e Bolla Vendita sono campi obbligatori")
  else if numero_bus <=? 0 then
    raise (ValueError "Il numero di bus deve essere maggiore di 0")
  else if (length componenti =? 0)%nat then
    raise (ValueError "Almeno un componente è obbligatorio")
  else
    modify (fun self =>
      GE.mk (Some []) (GE.gestore_sn self) (GE.gestione_componenti self));;
    let* componenti_sn_calcolati := precalcolo componenti in
    ciclo_principale fornitore bolla_produzione bolla_vendita
                     numero_bus bus_iniziale componenti_sn_calcolati;;
    sincronizza componenti;;
    let* self := get in
    ret (default [] (GE.workbook self)).

End Generatore.

(** ** Loading the stores *)

(** [GestoreSerialNumber.__init__]: the state is read from the file. *)
Definition gsn_init (file : option (gmap string Stato.t)) : GSN.t :=
  GSN.mk (_carica_stato file) file 0 0.

(** An entry of the JSON file as it is read: the key
    ['inizio_indicizzazione_prefisso'] may be missing ([None]). *)
Module ComponenteJson.
Record t : Type := mk {
  nome : string;
  code_12nc : string;
  sn_iniziale : option Z;
  prefisso_tipo_scheda : option string;
  indicizzazione : bool;
  inizio_indicizzazione_prefisso : option IndexPolicy
}.
End ComponenteJson.

(** The component file: missing, not valid JSON, or a list of entries. *)
Inductive FileComponenti : Type :=
| FileAssente
| FileIllegibile
| FileLista (l : list ComponenteJson.t).

(** [comp['inizio_indicizzazione_prefisso'] = None] when the key is
    missing. *)
Definition migra (comp : ComponenteJson.t) : Componente.t :=
  Componente.mk (ComponenteJson.nome comp) (ComponenteJson.code_12nc comp)
    (ComponenteJson.sn_iniziale comp)
    (ComponenteJson.prefisso_tipo_scheda comp)
    (ComponenteJson.indicizzazione comp)
    (default PNone (ComponenteJson.inizio_indicizzazione_prefisso comp)).

(** [json.dump] of an entry in memory: all six keys are written. *)
Definition in_json (c : Componente.t) : ComponenteJson.t :=
  ComponenteJson.mk (Componente.nome c) (Componente.code_12nc c)
    (Componente.sn_iniziale c) (Componente.prefisso_tipo_scheda c)
    (Componente.indicizzazione c)
    (Some (Componente.inizio_indicizzazione_prefisso c)).

(** [_salva_componenti_lista], with the outcome of its write. *)
Definition _salva_componenti_lista (ok : bool)
    (componenti : list Componente.t) (file : FileComponenti)
  : FileComponenti :=
  if ok then FileLista (in_json <$> componenti) else file.

(** [_carica_componenti]: the list loaded and the file left behind. *)
Definition _carica_componenti (ok : bool) (file : FileComponenti)
  : list Componente.t * FileComponenti :=
  match file with
  | FileLista l =>
      let componenti := migra <$> l in
      let migrazione_necessaria :=
        existsb (fun comp =>
                   match ComponenteJson.inizio_indicizzazione_prefisso comp with
                   | None => true
                   | Some _ => false
                   end) l in
      (componenti,
       if migrazione_necessaria
       then _salva_componenti_lista ok componenti file
       else file)
  | FileAssente | FileIllegibile => ([], file)
  end.

(** ** Reading a serial number back

    The inverse of the rendering, used to state what a formatted serial
    spells: the value of a non-empty string of decimal digits. *)

Definition digit_value (c : ascii) : option Z :=
  let n := nat_of_ascii c in
  if ((48 <=? n) && (n <=? 57))%nat then Some (Z.of_nat n - 48) else None.

Fixpoint valore_acc (acc : Z) (s : string) : option Z :=
  match s with
  | EmptyString => Some acc
  | String c s' =>
      match digit_value c with
      | Some d => valore_acc (10 * acc + d) s'
      | None => None
      end
  end.

Definition valore_decimale (s : string) : option Z :=
  match s with
  | EmptyString => None
  | _ => valore_acc 0 s
  end.

(** The counter [genera_serial_number] computes, as a function of the
    state it starts from. *)
Definition numero_incrementale (self : GSN.t) (descrizione : string)
    (sn_iniziale : option Z) : Z :=
  match sn_iniziale with
  | Some v => v
  | None =>
      match GSN.stato self !! descrizione with
      | Some st => Stato.ultimo_sn st + 1
      | None => 0
      end
  end.

(** The letter of a month by its position in the alphabet. *)
Definition lettera_del_mese (mese : Z) : ascii :=
  ascii_of_nat (64 + Z.to_nat mese).

(** The serial of counter [n] at the time [ora]. *)
Definition serial_formattato (ora : datetime) (n : Z) : string :=
  String (lettera_del_mese (month ora))
         (Py.format_0d 2 (year ora mod 100) +:+ " " +:+ Py.format_0d 5 n).

(** The allocator after one allocation for [d]. *)
Definition gsn_dopo (now : nat -> datetime) (disco : nat -> bool)
    (self : GSN.t) (d : string) (sn0 : option Z) (code : option string)
  : GSN.t :=
  let stato' :=
    <[d := Stato.mk (numero_incrementale self d sn0)
                    (isoformat (now (GSN.chiamate self))) code]>
      (GSN.stato self) in
  GSN.mk stato'
         (if disco (GSN.scritture self) then Some stato'
          else GSN.file_stato self)
         (S (GSN.chiamate self)) (S (GSN.scritture self)).

(** ** Example data *)

Definition giugno_2025 : datetime :=
  mk_datetime 2025 6 "2025-06-15T10:30:00" I.

Definition ottobre_2025 : datetime :=
  mk_datetime 2025 10 "2025-10-03T08:00:00" I.

Definition sempre {A} (a : A) : nat -> A := fun _ => a.

Definition gsn_vuoto : GSN.t := GSN.mk ∅ None 0 0.

Definition gsn_sensor : GSN.t :=
  GSN.mk {[ "SENSOR" := Stato.mk 7 "2025-05-02T09:00:00" (Some "ABC123") ]}
         None 3 3.

Definition richiesta_sensor : Richiesta.t :=
  Richiesta.mk "SENSOR" (Some 1) None (Some "SU") (Some "ABC123")
               (Some true) PNone.

Definition richiesta_senza_codice : Richiesta.t :=
  Richiesta.mk "VALVE" (Some 1) None (Some "VL") None (Some true) PNone.

Definition richiesta_relay : Richiesta.t :=
  Richiesta.mk "RELAY" (Some 3) (Some 40) (Some "RL") (Some "XYZ000")
               None (PList [1; 3; 5]).

Definition componente_sensor : Componente.t :=
  Componente.mk "SENSOR" "ABC123" None (Some "SU") true PNone.

Definition componente_relay : Componente.t :=
  Componente.mk "RELAY" "XYZ789" (Some 4) None false (PInt 3).

Definition gc_due : GC.t :=
  GC.mk [componente_sensor; componente_relay] None 0.

Definition ge_iniziale : GE.t := GE.mk None gsn_vuoto (Some gc_due).

(** ** Notions used by the statements *)

(** The names of the registry are pairwise distinct. *)
Definition nomi_unici (self : GC.t) : Prop :=
  NoDup (ottieni_nomi_componenti self).

(** The fields of a registry entry the synchronisation is to keep. *)
Definition stessi_campi_fissi (c c' : Componente.t) : Prop :=
  Componente.nome c' = Componente.nome c /\
  Componente.code_12nc c' = Componente.code_12nc c /\
  Componente.prefisso_tipo_scheda c' = Componente.prefisso_tipo_scheda c /\
  Componente.indicizzazione c' = Componente.indicizzazione c.

(** The registry after a step: entry by entry the fixed fields are kept. *)
Definition registro_conservato (s s' : GE.t) : Prop :=
  match GE.gestione_componenti s with
  | Some gc =>
      exists gc', GE.gestione_componenti s' = Some gc' /\
                  Forall2 stessi_campi_fissi (GC.componenti gc)
                          (GC.componenti gc')
  | None => GE.gestione_componenti s' = None
  end.

(** The index of the specification: position plus one without a policy,
    offset plus position for an integer, the list read cyclically for a
    non-empty list (and position plus one for an empty one). *)
Definition indice_atteso (policy : IndexPolicy) (p : Z) : Z :=
  match policy with
  | PNone => p + 1
  | PInt o => o + p
  | PList [] => p + 1
  | PList (x :: l) => nth (Z.to_nat (p mod Z.of_nat (length (x :: l)))) (x :: l) 0
  end.

(** The card-type label of the specification, from the card prefix, the
    indexing flag and the index policy. *)
Definition etichetta_attesa (prefisso : option string) (indicizzazione : bool)
    (policy : IndexPolicy) (p : Z) : string :=
  match prefisso with
  | None => ""
  | Some prefisso =>
      if String.eqb prefisso "" then ""
      else if indicizzazione
      then prefisso +:+ Py.str (indice_atteso policy p)
      else prefisso
  end.

(** The (bus, label) columns the specification expects of a run: bus after
    bus, component after component, positions from 0 in every bus. *)
Definition colonne_attese (numero_bus bus_iniziale : Z)
    (componenti : list Richiesta.t) : list (string * string) :=
  bus_idx ← Py.range numero_bus;
  r ← componenti;
  p ← Py.range (default 1 (Richiesta.quantita r));
  [("BUS " +:+ Py.str (bus_iniziale + bus_idx),
    etichetta_attesa (Richiesta.prefisso_tipo_scheda r)
                     (default true (Richiesta.indicizzazione r))
                     (Richiesta.inizio_indicizzazione_prefisso r) p)].

(** The bus and card-type columns of a row. *)
Definition colonne (riga : Riga.t) : string * string :=
  (Riga.bus riga, Riga.tipo_scheda riga).

(** What the pre-computation keeps of a requested component. *)
Definition calcolato_da (r : Richiesta.t) (ci : CompInfo.t) : Prop :=
  CompInfo.nome ci = Richiesta.nome r /\
  CompInfo.quantita ci = default 1 (Richiesta.quantita r) /\
  CompInfo.prefisso_tipo_scheda ci = Richiesta.prefisso_tipo_scheda r /\
  CompInfo.indicizzazione ci = default true (Richiesta.indicizzazione r) /\
  CompInfo.inizio_indicizzazione_prefisso ci
    = Richiesta.inizio_indicizzazione_prefisso r.

(** Every pre-computed component has its flag in [primo_utilizzo]. *)
Definition flag_presenti (cis : list CompInfo.t) (primo : gmap string bool)
  : Prop :=
  Forall (fun ci => is_Some (primo !! CompInfo.nome ci)) cis.

(** The (bus, label) columns of one pre-computed component in one bus. *)
Definition colonne_bus (bus_number : Z) (ci : CompInfo.t)
  : list (string * string) :=
  p ← Py.range (CompInfo.quantita ci);
  [("BUS " +:+ Py.str bus_number,
    etichetta_attesa (CompInfo.prefisso_tipo_scheda ci)
                     (CompInfo.indicizzazione ci)
                     (CompInfo.inizio_indicizzazione_prefisso ci) p)].

(** A component of a run that has neither a serial state nor a code. *)
Definition senza_codice (stato : gmap string Stato.t) (r : Richiesta.t)
  : Prop :=
  stato !! Richiesta.nome r = None /\ Py.truthy (Richiesta.code_12nc r) = false.

Definition messaggio_codice_mancante (nome : string) : string :=
  "CODE 12NC è obbligatorio al primo inserimento del componente: " +:+ nome.

(** The lookup of a name in a list of entries, as
    [cerca_componente_per_nome] does it on [self.componenti]. *)
Definition cerca_in (l : list Componente.t) (n : string)
  : option Componente.t :=
  snd <$> list_find (fun comp => Componente.nome comp = n) l.

(** The four mutating operations of the registry. *)
Inductive Operazione : Type :=
| OpAggiungi (nome code_12nc : string) (sn_iniziale : option Z)
             (prefisso_tipo_scheda : option string) (indicizzazione : bool)
             (inizio_indicizzazione_prefisso : IndexPolicy)
| OpModifica (nome_originale nuovo_nome code_12nc : string)
             (sn_iniziale : option Z) (prefisso_tipo_scheda : option string)
             (indicizzazione : bool)
             (inizio_indicizzazione_prefisso : IndexPolicy)
| OpElimina (nome : string)
| OpAggiornaSn (nome : string) (nuovo_sn : Z).

Definition esegui (dc : nat -> bool) (op : Operazione) : M GC.t bool :=
  match op with
  | OpAggiungi n c sn p i pol => aggiungi_componente dc n c sn p i pol
  | OpModifica o n c sn p i pol => modifica_componente dc o n c sn p i pol
  | OpElimina n => elimina_componente dc n
  | OpAggiornaSn n sn => aggiorna_sn_iniziale dc n sn
  end.

(** The file a registry object has written, as the loader reads it. *)
Definition file_json (f : option (list Componente.t)) : FileComponenti :=
  match f with
  | None => FileAssente
  | Some l => FileLista (in_json <$> l)
  end.

(** The entry of [componenti_sn_calcolati] for a component that passes the
    check of the part code. *)
Definition calcolato (g : GSN.t) (r : Richiesta.t) : CompInfo.t :=
  CompInfo.mk (Richiesta.nome r) (default 1 (Richiesta.quantita r))
    (numero_incrementale g (Richiesta.nome r) (Richiesta.sn_iniziale r))
    (Richiesta.prefisso_tipo_scheda r)
    (match GSN.stato g !! Richiesta.nome r with
     | Some st => Py.or_else (Richiesta.code_12nc r) (Stato.code_12nc st)
     | None => Richiesta.code_12nc r
     end)
    (default true (Richiesta.indicizzazione r))
    (Richiesta.inizio_indicizzazione_prefisso r).

(** The rows of the sheet for one description. *)
Definition righe_di (nome : string) (righe : list Riga.t) : list Riga.t :=
  filter (fun riga => Riga.descrizione riga = nome) righe.

(** What holds between two elements of the main loop, relative to the
    allocator [g0] the loop started from with an empty sheet: the clock has
    been read once per row; a component without rows still has its flag and
    its state of [g0]; a component with [k] rows has lost its flag and its
    last serial is its first serial plus [k - 1]; descriptions outside the
    run are as in [g0]; and row [i] carries the serial of its component's
    first serial plus the number of earlier rows of that component. *)
Definition inv_seriali (now : nat -> datetime) (cis : list CompInfo.t)
    (g0 : GSN.t) (primo : gmap string bool) (s : GE.t) : Prop :=
  exists righe,
    GE.workbook s = Some righe /\
    GSN.chiamate (GE.gestore_sn s) = (GSN.chiamate g0 + length righe)%nat /\
    (forall ci, ci ∈ cis ->
       let k := length (righe_di (CompInfo.nome ci) righe) in
       (k = 0%nat ->
        primo !! CompInfo.nome ci = Some true /\
        GSN.stato (GE.gestore_sn s) !! CompInfo.nome ci
          = GSN.stato g0 !! CompInfo.nome ci) /\
       (k <> 0%nat ->
        primo !! CompInfo.nome ci = Some false /\
        get_ultimo_sn (GE.gestore_sn s) (CompInfo.nome ci)
          = CompInfo.prossimo_sn ci + Z.of_nat k - 1 /\
        is_Some (GSN.stato (GE.gestore_sn s) !! CompInfo.nome ci))) /\
    (forall d, d ∉ (CompInfo.nome <$> cis) ->
       GSN.stato (GE.gestore_sn s) !! d = GSN.stato g0 !! d) /\
    (forall i riga, righe !! i = Some riga ->
       exists ci, ci ∈ cis /\
         Riga.descrizione riga = CompInfo.nome ci /\
         Riga.code_12nc riga = CompInfo.code_12nc ci /\
         Riga.sn riga =
           serial_formattato (now (GSN.chiamate g0 + i)%nat)
             (CompInfo.prossimo_sn ci
              + Z.of_nat (length (righe_di (CompInfo.nome ci)
                                           (take i righe))))).

(** The code stored for a component between two elements of the main
    loop: the code of the run after its first row, nothing after its
    second. *)
Definition inv_codice (cis : list CompInfo.t) (s : GE.t) : Prop :=
  exists righe,
    GE.workbook s = Some righe /\
    forall ci, ci ∈ cis ->
      let k := length (righe_di (CompInfo.nome ci) righe) in
      (k = 1%nat ->
       Stato.code_12nc <$> GSN.stato (GE.gestore_sn s) !! CompInfo.nome ci
       = Some (CompInfo.code_12nc ci)) /\
      ((2 <= k)%nat ->
       Stato.code_12nc <$> GSN.stato (GE.gestore_sn s) !! CompInfo.nome ci
       = Some None).

(** ** Rendering of integers *)

Example str_138 : Py.str 138 = "138". Proof. reflexivity. Qed.
Example str_0 : Py.str 0 = "0". Proof. reflexivity. Qed.
Example str_m5 : Py.str (-5) = "-5". Proof. reflexivity. Qed.
Example str_100 : Py.str 100000 = "100000". Proof. reflexivity. Qed.
Example fmt_138 : Py.format_0d 5 138 = "00138". Proof. reflexivity. Qed.
Example fmt_m5 : Py.format_0d 5 (-5) = "-0005". Proof. reflexivity. Qed.
Example fmt_big : Py.format_0d 5 1234567 = "1234567". Proof. reflexivity. Qed.

Lemma digit_value_digit_char d :
  0 <= d < 10 -> digit_value (Py.digit_char d) = Some d.
Proof.
  intros Hd.
  assert (Hcases : d = 0 \/ d = 1 \/ d = 2 \/ d = 3 \/ d = 4 \/ d = 5 \/
                   d = 6 \/ d = 7 \/ d = 8 \/ d = 9) by lia.
  repeat (destruct Hcases as [-> | Hcases]; [reflexivity |]).
  subst d. reflexivity.
Qed.

Lemma append_cons c (s t : string) : String c s +:+ t = String c (s +:+ t).
Proof. reflexivity. Qed.

Lemma append_nil (t : string) : "" +:+ t = t.
Proof. reflexivity. Qed.

Lemma append_nil_r (s : string) : s +:+ "" = s.
Proof.
  induction s as [| c s IH]; [reflexivity |].
  now rewrite append_cons, IH.
Qed.

Lemma length_zeros k : String.length (Py.zeros k) = k.
Proof. induction k as [| k IH]; simpl; [reflexivity | now rewrite IH]. Qed.

Lemma string_length_app (s t : string) :
  String.length (s +:+ t) = (String.length s + String.length t)%nat.
Proof.
  induction s as [| c s IH]; [reflexivity |].
  rewrite append_cons. simpl. now rewrite IH.
Qed.

Lemma valore_acc_zeros k v s :
  valore_acc v (Py.zeros k +:+ s) = valore_acc (v * 10 ^ Z.of_nat k) s.
Proof.
  revert v. induction k as [| k IH]; intros v.
  - rewrite append_nil. f_equal. simpl. lia.
  - cbn [Py.zeros]. rewrite append_cons. cbn [valore_acc].
    change (digit_value "0"%char) with (Some 0).
    cbv iota. rewrite IH. f_equal.
    rewrite Nat2Z.inj_succ, Z.pow_succ_r by lia. lia.
Qed.

(** What [str_aux] writes in front of its accumulator: [k] digits that
    spell [n], with no leading zero unless [n] has a single digit. *)
Lemma str_aux_spec fuel :
  forall n, (1 <= fuel)%nat -> 0 <= n < 2 ^ Z.of_nat fuel ->
  exists k : nat,
    (1 <= k)%nat /\ n < 10 ^ Z.of_nat k /\
    (k = 1%nat \/ 10 ^ (Z.of_nat k - 1) <= n) /\
    (forall acc, String.length (Py.str_aux fuel n acc)
                 = (k + String.length acc)%nat) /\
    (forall acc v, valore_acc v (Py.str_aux fuel n acc)
                   = valore_acc (v * 10 ^ Z.of_nat k + n) acc).
Proof.
  induction fuel as [| f IH]; intros n Hfuel Hn.
  - lia.
  - cbn [Py.str_aux]. destruct (Z.ltb_spec n 10) as [Hlt | Hge].
    + exists 1%nat.
      split; [lia |]. split; [simpl; lia |]. split; [now left |].
      split; [intros acc; reflexivity |].
      intros acc v. cbn [valore_acc].
      rewrite Z.mod_small by lia.
      rewrite digit_value_digit_char by lia. f_equal. simpl. lia.
    + assert (Hq : 0 <= n / 10 < 2 ^ Z.of_nat f).
      { split; [apply Z.div_pos; lia |].
        rewrite Nat2Z.inj_succ, Z.pow_succ_r in Hn by lia.
        apply Z.div_lt_upper_bound; lia. }
      assert (Hf : (1 <= f)%nat).
      { destruct f; [simpl in Hq; lia | lia]. }
      destruct (IH _ Hf Hq) as (k & Hk1 & Hub & Hlb & Hlen & Hval).
      assert (Hdm : n = 10 * (n / 10) + n mod 10) by (apply Z.div_mod; lia).
      assert (Hm : 0 <= n mod 10 < 10) by (apply Z.mod_pos_bound; lia).
      exists (S k). rewrite Nat2Z.inj_succ, Z.pow_succ_r by lia.
      split; [lia |]. split; [lia |]. split; [| split].
      * right. replace (Z.succ (Z.of_nat k) - 1) with (Z.of_nat k) by lia.
        destruct Hlb as [-> | Hlb]; [simpl; lia |].
        replace (Z.of_nat k) with (Z.succ (Z.of_nat k - 1)) by lia.
        rewrite Z.pow_succ_r by lia. lia.
      * intros acc. rewrite Hlen. simpl. lia.
      * intros acc v. rewrite Hval. cbn [valore_acc].
        rewrite digit_value_digit_char by lia. f_equal. lia.
Qed.

Lemma str_abs_spec n :
  0 <= n ->
  exists k : nat,
    (1 <= k)%nat /\ n < 10 ^ Z.of_nat k /\
    (k = 1%nat \/ 10 ^ (Z.of_nat k - 1) <= n) /\
    String.length (Py.str_abs n) = k /\
    (forall v s, valore_acc v (Py.str_abs n +:+ s)
                 = valore_acc (v * 10 ^ Z.of_nat k + n) s).
Proof.
  intros Hn. unfold Py.str_abs. rewrite Z.abs_eq by lia.
  assert (Hfuel : 0 <= n < 2 ^ Z.of_nat (S (Z.to_nat (Z.log2 n)))).
  { split; [lia |].
    rewrite Nat2Z.inj_succ, Z2Nat.id by apply Z.log2_nonneg.
    destruct (Z.eq_dec n 0) as [-> | Hnz]; [reflexivity |].
    apply Z.log2_spec. lia. }
  destruct (str_aux_spec (S (Z.to_nat (Z.log2 n))) n ltac:(lia) Hfuel)
    as (k & Hk1 & Hub & Hlb & Hlen & Hval).
  exists k.
  split; [assumption |]. split; [assumption |]. split; [assumption |]. split.
  - rewrite Hlen. simpl. lia.
  - intros v s.
    set (fuel := S (Z.to_nat (Z.log2 n))) in *.
    assert (Happ : forall f m acc t,
               Py.str_aux f m acc +:+ t = Py.str_aux f m (acc +:+ t)).
    { clear. induction f as [| f IH]; intros m acc t; [reflexivity |].
      cbn [Py.str_aux]. destruct (m <? 10); [reflexivity |].
      now rewrite IH, append_cons. }
    rewrite Happ, append_nil. apply Hval.
Qed.

(** A non-negative number printed with [0<w>d] reads back as itself, fills
    at least [w] characters, and exactly [w] when it has at most [w]
    digits. *)
Lemma format_0d_nonneg w n :
  0 <= n ->
  valore_decimale (Py.format_0d w n) = Some n /\
  (w <= String.length (Py.format_0d w n))%nat /\
  (n < 10 ^ Z.of_nat w -> (1 <= w)%nat ->
   String.length (Py.format_0d w n) = w).
Proof.
  intros Hn. unfold Py.format_0d.
  destruct (Z.ltb_spec n 0) as [Hneg | _]; [lia |].
  destruct (str_abs_spec n Hn) as (k & Hk1 & Hub & Hlb & Hlen & Hval).
  rewrite Hlen. split; [| split].
  - assert (Hne : Py.zeros (w - k) +:+ Py.str_abs n <> "").
    { intros Heq. apply (f_equal String.length) in Heq.
      rewrite string_length_app, Hlen in Heq. simpl in Heq. lia. }
    unfold valore_decimale.
    destruct (Py.zeros (w - k) +:+ Py.str_abs n) eqn:Hs; [congruence |].
    rewrite <- Hs, valore_acc_zeros.
    rewrite <- (append_nil_r (Py.str_abs n)).
    rewrite Hval. simpl. f_equal; lia.
  - rewrite string_length_app, length_zeros, Hlen. lia.
  - intros Hw Hw1. rewrite string_length_app, length_zeros, Hlen.
    assert (k <= w)%nat; [| lia].
    destruct Hlb as [-> | Hlb]; [lia |].
    assert (Hlt : 10 ^ (Z.of_nat k - 1) < 10 ^ Z.of_nat w) by lia.
    apply Z.pow_lt_mono_r_iff in Hlt; lia.
Qed.

(** ** The allocator *)

Lemma _get_mese_lettera_datetime (ora : datetime) :
  _get_mese_lettera (month ora) = Ok (lettera_del_mese (month ora)).
Proof.
  destruct ora as [y m iso Hm]. cbn [month].
  apply Is_true_true, andb_true_iff in Hm as [H1 H2].
  apply Z.leb_le in H1, H2.
  assert (Hcases : m = 1 \/ m = 2 \/ m = 3 \/ m = 4 \/ m = 5 \/ m = 6 \/
                   m = 7 \/ m = 8 \/ m = 9 \/ m = 10 \/ m = 11 \/ m = 12)
    by lia.
  repeat (destruct Hcases as [-> | Hcases]; [reflexivity |]).
  subst m. reflexivity.
Qed.

(** One allocation, in closed form: it never raises. *)
Lemma genera_serial_number_eq now disco self d sn0 code :
  genera_serial_number now disco d sn0 code self =
    (Ok (serial_formattato (now (GSN.chiamate self))
                           (numero_incrementale self d sn0)),
     gsn_dopo now disco self d sn0 code).
Proof.
  unfold genera_serial_number, bind, datetime_now, lift_result, get, modify,
    _salva_stato, ret, gsn_dopo, serial_formattato.
  cbn [GSN.chiamate GSN.stato GSN.file_stato GSN.scritture].
  rewrite _get_mese_lettera_datetime. reflexivity.
Qed.

(** C1. For every description, an allocation picks its counter by
    priority: the explicit override when one is given, whatever the prior
    state; otherwise the last serial plus one when the description has a
    state; otherwise 0.  The call returns the serial formatted from that
    counter and leaves it as the description's last serial. *)
Theorem C1_genera_serial_number_priorita
    (now : nat -> datetime) (disco : nat -> bool) (self : GSN.t)
    (d : string) (override : option Z) (code : option string) :
  exists (n : Z) (self' : GSN.t),
    genera_serial_number now disco d override code self =
      (Ok (String (lettera_del_mese (month (now (GSN.chiamate self))))
                  (Py.format_0d 2 (year (now (GSN.chiamate self)) mod 100)
                   +:+ " " +:+ Py.format_0d 5 n)),
       self') /\
    Stato.ultimo_sn <$> GSN.stato self' !! d = Some n /\
    get_ultimo_sn self' d = n /\
    (forall v, override = Some v -> n = v) /\
    (forall st, override = None -> GSN.stato self !! d = Some st ->
                n = Stato.ultimo_sn st + 1) /\
    (override = None -> GSN.stato self !! d = None -> n = 0).
Proof.
  eexists _, _. split; [apply genera_serial_number_eq |].
  unfold get_ultimo_sn, gsn_dopo. cbn [GSN.stato]. rewrite lookup_insert_eq.
  split; [reflexivity |]. split; [reflexivity |].
  unfold numero_incrementale. repeat split.
  - intros v ->. reflexivity.
  - intros st -> ->. reflexivity.
  - intros -> ->. reflexivity.
Qed.

(** C3. Every serial an allocation returns is the month letter (1 gives A,
    2 gives B, ..., 12 gives L), the year modulo 100 on two digits, a
    space, and the issued counter zero-padded to five digits; with month
    10, year 2025 and counter 138 it is "J25 00138". *)
Theorem C3_formato_serial
    (now : nat -> datetime) (disco : nat -> bool) (self : GSN.t)
    (d : string) (override : option Z) (code : option string) :
  let ora := now (GSN.chiamate self) in
  exists (sn yy nnnnn : string) (n : Z) (self' : GSN.t),
    genera_serial_number now disco d override code self = (Ok sn, self') /\
    get_ultimo_sn self' d = n /\
    sn = String (lettera_del_mese (month ora)) (yy +:+ " " +:+ nnnnn) /\
    lettere !! Z.to_nat (month ora - 1) = Some (lettera_del_mese (month ora)) /\
    lettera_del_mese <$> [1; 2; 3; 4; 5; 6; 7; 8; 9; 10; 11; 12] =
      ["A"; "B"; "C"; "D"; "E"; "F"; "G"; "H"; "I"; "J"; "K"; "L"]%char /\
    String.length yy = 2%nat /\
    valore_decimale yy = Some (year ora mod 100) /\
    nnnnn = Py.format_0d 5 n /\
    (0 <= n -> valore_decimale nnnnn = Some n /\
               (5 <= String.length nnnnn)%nat) /\
    (0 <= n < 100000 -> String.length nnnnn = 5%nat) /\
    (month ora = 10 -> year ora = 2025 -> n = 138 -> sn = "J25 00138").
Proof.
  intros ora.
  assert (Hyy : 0 <= year ora mod 100 < 100) by (apply Z.mod_pos_bound; lia).
  destruct (format_0d_nonneg 2 (year ora mod 100) ltac:(lia))
    as (Hval & _ & Hlen).
  eexists _, _, _, (numero_incrementale self d override), _.
  split; [apply genera_serial_number_eq |].
  unfold get_ultimo_sn, gsn_dopo. cbn [GSN.stato]. rewrite lookup_insert_eq.
  split; [reflexivity |]. split; [reflexivity |].
  split.
  { pose proof (_get_mese_lettera_datetime ora) as Hl.
    unfold _get_mese_lettera, Py.getitem in Hl.
    pose proof (month_ok ora) as Hm.
    apply Is_true_true, andb_true_iff in Hm as [H1 H2].
    apply Z.leb_le in H1, H2.
    destruct (Z.ltb_spec (month ora - 1) 0); [lia |].
    destruct (_ && _); [| discriminate].
    destruct (lettere !! _); [| discriminate].
    now inversion Hl. }
  split; [reflexivity |].
  split; [apply Hlen; simpl; lia |].
  split; [exact Hval |].
  split; [reflexivity |].
  split; [| split].
  - intros Hn. destruct (format_0d_nonneg 5 _ Hn) as (Hv & Hl & _).
    now split.
  - intros Hn. destruct (format_0d_nonneg 5 _ (proj1 Hn)) as (_ & _ & Hl).
    apply Hl; [change (10 ^ Z.of_nat 5) with 100000 |]; lia.
  - unfold serial_formattato. fold ora. intros Hm Hy Hn.
    rewrite Hm, Hy, Hn. reflexivity.
Qed.

(** C5, as the code has it. A failed write of the serial state file is
    caught and logged inside [_salva_stato]: the allocation still returns
    its serial and updates the state in memory exactly as it would with a
    successful write, while the file keeps its previous contents, so a
    reload after the failure sees the state from before the call. *)
Theorem C5_scrittura_fallita_non_fatale
    (now : nat -> datetime) (disco : nat -> bool) (self : GSN.t)
    (d : string) (override : option Z) (code : option string)
    (Hfail : disco (GSN.scritture self) = false) :
  exists (sn : string) (self' : GSN.t),
    genera_serial_number now disco d override code self = (Ok sn, self') /\
    GSN.file_stato self' = GSN.file_stato self /\
    _carica_stato (GSN.file_stato self') = _carica_stato (GSN.file_stato self) /\
    get_ultimo_sn self' d = numero_incrementale self d override /\
    (forall disco',
        let r := genera_serial_number now disco' d override code self in
        fst r = Ok sn /\ GSN.stato (snd r) = GSN.stato self').
Proof.
  eexists _, _. split; [apply genera_serial_number_eq |].
  unfold gsn_dopo. cbn [GSN.file_stato GSN.stato]. rewrite Hfail.
  split; [reflexivity |]. split; [reflexivity |]. split.
  - unfold get_ultimo_sn. cbn [GSN.stato]. now rewrite lookup_insert_eq.
  - intros disco'. cbv zeta. rewrite genera_serial_number_eq. now split.
Qed.

Lemma C5_scrittura_fallita_non_fatale_witness :
  exists (sn : string) (self' : GSN.t),
    genera_serial_number (sempre giugno_2025) (sempre false)
                         "SENSOR" None (Some "ABC123") gsn_sensor
      = (Ok sn, self') /\
    GSN.file_stato self' = GSN.file_stato gsn_sensor /\
    _carica_stato (GSN.file_stato self')
      = _carica_stato (GSN.file_stato gsn_sensor) /\
    get_ultimo_sn self' "SENSOR" = numero_incrementale gsn_sensor "SENSOR" None /\
    (forall disco',
        let r := genera_serial_number (sempre giugno_2025) disco'
                                      "SENSOR" None (Some "ABC123") gsn_sensor in
        fst r = Ok sn /\ GSN.stato (snd r) = GSN.stato self').
Proof.
  apply (C5_scrittura_fallita_non_fatale
           (sempre giugno_2025) (sempre false) gsn_sensor
           "SENSOR" None (Some "ABC123")).
  reflexivity.
Defined.

(** C5, as stated, fails: with every write failing, the first allocation
    for "SENSOR" returns "F25 00000" normally, the state in memory records
    counter 0, and the file still does not exist; a reload then has no
    state for "SENSOR" and the next first allocation issues 0 again. *)
Lemma C5_counterexample :
  sempre false (GSN.scritture gsn_vuoto) = false /\
  fst (genera_serial_number (sempre giugno_2025) (sempre false)
                            "SENSOR" None (Some "ABC123") gsn_vuoto)
    = Ok "F25 00000" /\
  get_ultimo_sn
    (snd (genera_serial_number (sempre giugno_2025) (sempre false)
                               "SENSOR" None (Some "ABC123") gsn_vuoto))
    "SENSOR" = 0 /\
  GSN.file_stato
    (snd (genera_serial_number (sempre giugno_2025) (sempre false)
                               "SENSOR" None (Some "ABC123") gsn_vuoto))
    = None.
Proof. vm_compute. repeat split; reflexivity. Qed.

(** C6, evaluated on the code. "SENSOR" has a state with last serial 7 and
    code "ABC123"; an allocation without a code argument returns counter 8
    and stores [None] as the code: the previous code is lost, because the
    whole entry is rebuilt from the arguments of the call.  The batch run
    itself does this: its allocations after the first pass no code, so a
    run of two buses that was given "ABC123" for "SENSOR" ends with no code
    stored, and the fallback to the stored code of a later run finds
    nothing. *)
Theorem C6_code_12nc_sovrascritto :
  Stato.code_12nc <$> GSN.stato gsn_sensor !! "SENSOR" = Some (Some "ABC123") /\
  fst (genera_serial_number (sempre giugno_2025) (sempre true)
                            "SENSOR" None None gsn_sensor)
    = Ok "F25 00008" /\
  Stato.code_12nc <$>
    GSN.stato (snd (genera_serial_number (sempre giugno_2025) (sempre true)
                                         "SENSOR" None None gsn_sensor))
      !! "SENSOR"
    = Some None /\
  Stato.code_12nc <$>
    GSN.stato
      (GE.gestore_sn
         (snd (crea_documento_con_componenti
                 (sempre giugno_2025) (sempre true) (sempre true)
                 "BP1" "BV1" 2 [richiesta_sensor] 5 "TECHRAIL" ge_iniziale)))
      !! "SENSOR"
    = Some None.
Proof. vm_compute. repeat split; reflexivity. Qed.

(** ** The registry *)

Lemma cerca_componente_per_nome_None self nome :
  cerca_componente_per_nome self nome = None <->
  nome ∉ ottieni_nomi_componenti self.
Proof.
  unfold cerca_componente_per_nome, ottieni_nomi_componenti.
  rewrite fmap_None, list_find_None, Forall_forall, list_elem_of_fmap.
  split.
  - intros H (c & -> & Hc). now apply (H c).
  - intros H c Hc Heq. apply H. exists c. auto.
Qed.

Lemma NoDup_insert {A} (l : list A) i x :
  NoDup l -> x ∉ l -> NoDup (<[i := x]> l).
Proof.
  intros Hl. revert i. induction Hl as [| a l Ha Hl IH]; intros i Hx.
  - constructor.
  - apply not_elem_of_cons in Hx as [Hxa Hxl].
    destruct i as [| i]; simpl.
    + constructor; assumption.
    + constructor; [| now apply IH].
      intros Hin. apply list_elem_of_lookup in Hin as [j Hj].
      apply list_lookup_insert_Some in Hj as [(_ & -> & _) | [_ Hj]].
      * congruence.
      * apply Ha. eapply list_elem_of_lookup_2; eauto.
Qed.

(** What holds of the claim on the code: a name already present is
    refused without any change, and additions, removals and updates that
    keep the name or take a fresh one preserve the uniqueness of names. *)
Lemma aggiungi_componente_esistente dc nome code sn pref ind pol self :
  is_Some (cerca_componente_per_nome self nome) ->
  aggiungi_componente dc nome code sn pref ind pol self = (Ok false, self).
Proof. intros [c Hc]. unfold aggiungi_componente. now rewrite Hc. Qed.

Lemma aggiungi_componente_unici dc nome code sn pref ind pol self :
  nomi_unici self ->
  nomi_unici (snd (aggiungi_componente dc nome code sn pref ind pol self)).
Proof.
  intros Hu. unfold aggiungi_componente.
  destruct (cerca_componente_per_nome self nome) eqn:Hc; [exact Hu |].
  apply cerca_componente_per_nome_None in Hc.
  unfold nomi_unici, ottieni_nomi_componenti in *. cbn.
  rewrite fmap_app. apply NoDup_app. split; [assumption |]. split.
  - intros x Hx [-> | Hin]%elem_of_cons; [contradiction |].
    now apply elem_of_nil in Hin.
  - apply NoDup_singleton.
Qed.

Lemma elimina_componente_unici dc nome self :
  nomi_unici self -> nomi_unici (snd (elimina_componente dc nome self)).
Proof.
  intros Hu. unfold elimina_componente.
  assert (Hf : NoDup (Componente.nome <$>
             filter (fun c => Componente.nome c <> nome) (GC.componenti self))).
  { eapply sublist_NoDup; [exact Hu |].
    apply fmap_sublist, sublist_filter. }
  destruct (_ <? _)%nat; exact Hf.
Qed.

Lemma modifica_componente_unici dc orig nuovo code sn pref ind pol self :
  nomi_unici self ->
  nuovo = orig \/ nuovo ∉ ottieni_nomi_componenti self ->
  nomi_unici (snd (modifica_componente dc orig nuovo code sn pref ind pol self)).
Proof.
  intros Hu Hn. unfold modifica_componente.
  destruct (list_find _ _) as [[i c] |] eqn:Hf; [| exact Hu].
  apply list_find_Some in Hf as (Hi & Hc & _).
  unfold nomi_unici, ottieni_nomi_componenti in *. cbn.
  rewrite list_fmap_insert. cbn.
  destruct Hn as [-> | Hn].
  - rewrite list_insert_id; [assumption |].
    now rewrite list_lookup_fmap, Hi, <- Hc.
  - now apply NoDup_insert.
Qed.

(** C7, evaluated on the code. The registry holds "SENSOR" and "RELAY".
    Adding "SENSOR" again is refused and changes nothing, but renaming
    "RELAY" to "SENSOR" with [modifica_componente] succeeds and leaves two
    entries named "SENSOR": the update has no check of the new name. *)
Theorem C7_modifica_componente_duplica_nome :
  ottieni_nomi_componenti gc_due = ["SENSOR"; "RELAY"] /\
  aggiungi_componente (sempre true) "SENSOR" "NEW" None None true PNone gc_due
    = (Ok false, gc_due) /\
  fst (modifica_componente (sempre true) "RELAY" "SENSOR" "XYZ789"
                           (Some 4) None false (PInt 3) gc_due) = Ok true /\
  ottieni_nomi_componenti
    (snd (modifica_componente (sempre true) "RELAY" "SENSOR" "XYZ789"
                              (Some 4) None false (PInt 3) gc_due))
    = ["SENSOR"; "SENSOR"].
Proof. vm_compute. repeat split; reflexivity. Qed.

(** C9. With an empty list as the index policy the index computation
    does not fail at any position: it returns position plus one, as with
    no policy, and the label is the one of the absent policy. *)
Theorem C9_lista_vuota_come_assente (p : Z) (comp_info : CompInfo.t) :
  numero_indic (PList []) p = Ok (p + 1) /\
  numero_indic (PList []) p = numero_indic PNone p /\
  (CompInfo.inizio_indicizzazione_prefisso comp_info = PList [] ->
   tipo_scheda comp_info p =
   tipo_scheda (CompInfo.mk (CompInfo.nome comp_info)
                  (CompInfo.quantita comp_info)
                  (CompInfo.prossimo_sn comp_info)
                  (CompInfo.prefisso_tipo_scheda comp_info)
                  (CompInfo.code_12nc comp_info)
                  (CompInfo.indicizzazione comp_info) PNone) p).
Proof.
  split; [reflexivity |]. split; [reflexivity |].
  intros Hp. unfold tipo_scheda. cbn. now rewrite Hp.
Qed.

(** ** The pre-computation of a run *)

Lemma calcola_sn_stato r s : snd (calcola_sn r s) = s.
Proof.
  unfold calcola_sn, bind, get, ret, raise. cbn.
  destruct (GSN.stato (GE.gestore_sn s) !! Richiesta.nome r); [reflexivity |].
  destruct (Py.truthy (Richiesta.code_12nc r)); reflexivity.
Qed.

Lemma calcola_sn_senza_codice r s :
  senza_codice (GSN.stato (GE.gestore_sn s)) r ->
  calcola_sn r s =
    (Raise (ValueError (messaggio_codice_mancante (Richiesta.nome r))), s).
Proof.
  intros [Hst Hcode]. unfold calcola_sn, bind, get, ret, raise. cbn.
  now rewrite Hst, Hcode.
Qed.

Lemma calcola_sn_ok r s :
  ~ senza_codice (GSN.stato (GE.gestore_sn s)) r ->
  exists ci, calcola_sn r s = (Ok ci, s) /\ calcolato_da r ci.
Proof.
  intros Hno. unfold calcola_sn, bind, get, ret, raise, senza_codice in *. cbn.
  destruct (GSN.stato (GE.gestore_sn s) !! Richiesta.nome r) eqn:Hst.
  - eexists. split; [reflexivity |]. repeat split.
  - destruct (Py.truthy (Richiesta.code_12nc r)) eqn:Hcode.
    + eexists. split; [reflexivity |]. repeat split.
    + exfalso. apply Hno. now split.
Qed.

Lemma senza_codice_dec stato r :
  senza_codice stato r \/ ~ senza_codice stato r.
Proof.
  unfold senza_codice.
  destruct (stato !! Richiesta.nome r); [right; intros [? _]; discriminate |].
  destruct (Py.truthy (Richiesta.code_12nc r));
    [right; intros [_ ?]; discriminate | left; now split].
Qed.

Lemma senza_codice_tutti_o_uno stato (l : list Richiesta.t) :
  Forall (fun r => ~ senza_codice stato r) l \/ Exists (senza_codice stato) l.
Proof.
  induction l as [| r l [IH | IH]].
  - left. constructor.
  - destruct (senza_codice_dec stato r) as [Hr | Hr].
    + right. now left.
    + left. now constructor.
  - right. now right.
Qed.

(** The pre-computation never changes the state of the generator. *)
Lemma for_each_passo_precalcolo_stato l acc s :
  snd (for_each l passo_precalcolo acc s) = s.
Proof.
  revert acc. induction l as [| r l IH]; intros acc; [reflexivity |].
  cbn [for_each]. unfold bind at 1, passo_precalcolo at 1, bind at 1.
  pose proof (calcola_sn_stato r s) as Hs.
  destruct (calcola_sn r s) as [[ci | e] s1]; cbn in Hs; subst s1.
  - unfold ret at 1. apply IH.
  - reflexivity.
Qed.

(** It raises as soon as it meets a component without state and code. *)
Lemma for_each_passo_precalcolo_fallisce l acc s :
  Exists (senza_codice (GSN.stato (GE.gestore_sn s))) l ->
  exists r, r ∈ l /\ senza_codice (GSN.stato (GE.gestore_sn s)) r /\
    for_each l passo_precalcolo acc s =
      (Raise (ValueError (messaggio_codice_mancante (Richiesta.nome r))), s).
Proof.
  revert acc. induction l as [| r l IH]; intros acc Hex.
  - inversion Hex.
  - destruct (senza_codice_dec (GSN.stato (GE.gestore_sn s)) r) as [Hr | Hr].
    + exists r. split; [left |]. split; [assumption |].
      cbn [for_each]. unfold bind at 1, passo_precalcolo at 1, bind at 1.
      now rewrite calcola_sn_senza_codice.
    + assert (Hl : Exists (senza_codice (GSN.stato (GE.gestore_sn s))) l).
      { inversion Hex; subst; [contradiction | assumption]. }
      destruct (calcola_sn_ok r s Hr) as (ci & Hci & _).
      destruct (IH (acc ++ [ci]) Hl) as (r' & Hin & Hr' & Hrun).
      exists r'. split; [now right |]. split; [assumption |].
      cbn [for_each]. unfold bind at 1, passo_precalcolo at 1, bind at 1.
      rewrite Hci. unfold ret at 1. exact Hrun.
Qed.

(** With a state or a code for every component it succeeds. *)
Lemma for_each_passo_precalcolo_ok l acc s :
  Forall (fun r => ~ senza_codice (GSN.stato (GE.gestore_sn s)) r) l ->
  exists calcolati,
    for_each l passo_precalcolo acc s = (Ok (acc ++ calcolati), s) /\
    Forall2 calcolato_da l calcolati.
Proof.
  revert acc. induction l as [| r l IH]; intros acc Hall.
  - exists []. split; [now rewrite app_nil_r | constructor].
  - inversion Hall as [| ? ? Hr Hl]; subst.
    destruct (calcola_sn_ok r s Hr) as (ci & Hci & Hda).
    destruct (IH (acc ++ [ci]) Hl) as (calcolati & Hrun & Hf).
    exists (ci :: calcolati). split; [| now constructor].
    cbn [for_each]. unfold bind at 1, passo_precalcolo at 1, bind at 1.
    rewrite Hci. unfold ret at 1. rewrite Hrun. now rewrite <- app_assoc.
Qed.

(** C8. A run with a component that has no serial state and no part code
    fails with the [ValueError] of the missing code (when the delivery
    notes, the bus count and the list pass the first checks; with another
    [ValueError] otherwise) before any allocation: the allocator, with its
    state, its file and its counters, and the registry are as before the
    run. *)
Theorem C8_codice_mancante_senza_effetti
    (now : nat -> datetime) (disco_stato disco_componenti : nat -> bool)
    (bolla_produzione bolla_vendita : string) (numero_bus : Z)
    (componenti : list Richiesta.t) (bus_iniziale : Z) (fornitore : string)
    (self : GE.t)
    (Hmanca : Exists (senza_codice (GSN.stato (GE.gestore_sn self)))
                     componenti) :
  exists (msg : string) (self' : GE.t),
    crea_documento_con_componenti now disco_stato disco_componenti
      bolla_produzione bolla_vendita numero_bus componenti bus_iniziale
      fornitore self = (Raise (ValueError msg), self') /\
    GE.gestore_sn self' = GE.gestore_sn self /\
    GE.gestione_componenti self' = GE.gestione_componenti self /\
    (bolla_produzione <> "" -> bolla_vendita <> "" -> 0 < numero_bus ->
     exists r, r ∈ componenti /\
               senza_codice (GSN.stato (GE.gestore_sn self)) r /\
               msg = messaggio_codice_mancante (Richiesta.nome r)).
Proof.
  unfold crea_documento_con_componenti.
  destruct (String.eqb_spec bolla_produzione "") as [Hbp | Hbp].
  { eexists _, _. cbn. split; [reflexivity |]. repeat split. congruence. }
  destruct (String.eqb_spec bolla_vendita "") as [Hbv | Hbv].
  { eexists _, _. cbn. split; [reflexivity |]. repeat split. congruence. }
  cbn [orb]. destruct (Z.leb_spec numero_bus 0) as [Hn | Hn].
  { eexists _, _. split; [reflexivity |]. repeat split. lia. }
  destruct componenti as [| r0 rest] eqn:Hcomp; [inversion Hmanca |].
  rewrite <- Hcomp in *. replace (length componenti =? 0)%nat with false
    by (subst componenti; reflexivity).
  set (s1 := GE.mk (Some []) (GE.gestore_sn self)
                   (GE.gestione_componenti self)).
  destruct (for_each_passo_precalcolo_fallisce componenti [] s1 Hmanca)
    as (r & Hin & Hr & Hrun).
  exists (messaggio_codice_mancante (Richiesta.nome r)), s1.
  split; [| split; [reflexivity | split; [reflexivity |]]].
  - unfold bind at 1, modify at 1. fold s1.
    unfold bind at 1, precalcolo. now rewrite Hrun.
  - intros _ _ _. now exists r.
Qed.

Lemma C8_codice_mancante_senza_effetti_witness :
  exists (msg : string) (self' : GE.t),
    crea_documento_con_componenti
      (sempre giugno_2025) (sempre true) (sempre true)
      "BP1" "BV1" 2 [richiesta_sensor; richiesta_senza_codice] 5 "TECHRAIL"
      ge_iniziale = (Raise (ValueError msg), self') /\
    GE.gestore_sn self' = GE.gestore_sn ge_iniziale /\
    GE.gestione_componenti self' = GE.gestione_componenti ge_iniziale /\
    ("BP1" <> "" -> "BV1" <> "" -> 0 < 2 ->
     exists r, r ∈ [richiesta_sensor; richiesta_senza_codice] /\
               senza_codice (GSN.stato (GE.gestore_sn ge_iniziale)) r /\
               msg = messaggio_codice_mancante (Richiesta.nome r)).
Proof.
  apply (C8_codice_mancante_senza_effetti
           (sempre giugno_2025) (sempre true) (sempre true)
           "BP1" "BV1" 2 [richiesta_sensor; richiesta_senza_codice] 5
           "TECHRAIL" ge_iniziale).
  apply Exists_cons_tl, Exists_cons_hd. split; reflexivity.
Defined.

(** ** Frames of the loops *)

Section Frame.
Context {St : Type} (R : St -> St -> Prop).
Hypothesis R_refl : forall s, R s s.
Hypothesis R_trans : forall s1 s2 s3, R s1 s2 -> R s2 s3 -> R s1 s3.

Lemma bind_frame {A B} (c : M St A) (k : A -> M St B) s :
  R s (snd (c s)) ->
  (forall a s1, R s1 (snd (k a s1))) ->
  R s (snd (bind c k s)).
Proof.
  intros Hc Hk. unfold bind. destruct (c s) as [[a | e] s1]; cbn in *.
  - eapply R_trans; [exact Hc | apply Hk].
  - exact Hc.
Qed.

Lemma for_each_frame {A B} (l : list A) (body : A -> B -> M St B) :
  (forall x acc s, R s (snd (body x acc s))) ->
  forall acc s, R s (snd (for_each l body acc s)).
Proof.
  intros Hbody. induction l as [| x l IH]; intros acc s.
  - apply R_refl.
  - cbn [for_each]. apply bind_frame; [apply Hbody | intros; apply IH].
Qed.
End Frame.

(** ** The synchronisation with the registry *)

Lemma stessi_campi_fissi_refl (l : list Componente.t) :
  Forall2 stessi_campi_fissi l l.
Proof.
  apply Forall_Forall2_diag, Forall_forall. intros c _. repeat split.
Qed.

Lemma stessi_campi_fissi_trans (l1 l2 l3 : list Componente.t) :
  Forall2 stessi_campi_fissi l1 l2 -> Forall2 stessi_campi_fissi l2 l3 ->
  Forall2 stessi_campi_fissi l1 l3.
Proof.
  apply Forall2_trans.
  intros x y z (H1 & H2 & H3 & H4) (K1 & K2 & K3 & K4).
  repeat split; congruence.
Qed.

Lemma registro_conservato_refl s : registro_conservato s s.
Proof.
  unfold registro_conservato. destruct (GE.gestione_componenti s) as [gc |];
    [| reflexivity].
  exists gc. split; [reflexivity | apply stessi_campi_fissi_refl].
Qed.

Lemma registro_conservato_trans s1 s2 s3 :
  registro_conservato s1 s2 -> registro_conservato s2 s3 ->
  registro_conservato s1 s3.
Proof.
  unfold registro_conservato.
  destruct (GE.gestione_componenti s1) as [gc1 |].
  - intros (gc2 & -> & H12) (gc3 & -> & H23).
    exists gc3. split; [reflexivity |].
    eapply stessi_campi_fissi_trans; eassumption.
  - intros ->. trivial.
Qed.

Lemma registro_conservato_uguale s s' :
  GE.gestione_componenti s' = GE.gestione_componenti s ->
  registro_conservato s s'.
Proof.
  intros Heq. unfold registro_conservato. rewrite Heq.
  apply registro_conservato_refl.
Qed.

(** One component of the run: the first entry with its name gets the new
    resume point and the policy of the run, nothing else changes. *)
Lemma sincronizza_componente_trovato dc stato r gc st i c :
  stato !! Richiesta.nome r = Some st ->
  list_find (fun comp => Componente.nome comp = Richiesta.nome r)
            (GC.componenti gc) = Some (i, c) ->
  sincronizza_componente dc stato r gc =
    (Ok tt,
     _salva_componenti dc
       (GC.mk (<[i := Componente.mk
                        (Componente.nome c) (Componente.code_12nc c)
                        (Some (Stato.ultimo_sn st + 1))
                        (Componente.prefisso_tipo_scheda c)
                        (Componente.indicizzazione c)
                        (Richiesta.inizio_indicizzazione_prefisso r)]>
                 (GC.componenti gc))
              (GC.file_componenti gc) (GC.scritture gc))).
Proof.
  intros Hst Hfind. unfold sincronizza_componente. rewrite Hst.
  unfold bind at 1, get at 1, cerca_componente_per_nome. rewrite Hfind.
  cbn [fmap option_fmap option_map snd].
  unfold bind, modifica_componente, ret. now rewrite Hfind.
Qed.

Lemma sincronizza_componente_assente dc stato r gc :
  stato !! Richiesta.nome r = None \/
  cerca_componente_per_nome gc (Richiesta.nome r) = None ->
  sincronizza_componente dc stato r gc = (Ok tt, gc).
Proof.
  intros Hno. unfold sincronizza_componente.
  destruct (stato !! Richiesta.nome r); [| reflexivity].
  destruct Hno as [Hno | Hno]; [discriminate |].
  unfold bind, get. now rewrite Hno.
Qed.

Lemma sincronizza_componente_campi dc stato r gc :
  exists gc',
    sincronizza_componente dc stato r gc = (Ok tt, gc') /\
    Forall2 stessi_campi_fissi (GC.componenti gc) (GC.componenti gc').
Proof.
  destruct (stato !! Richiesta.nome r) as [st |] eqn:Hst.
  - destruct (list_find (fun comp => Componente.nome comp = Richiesta.nome r)
                        (GC.componenti gc)) as [[i c] |] eqn:Hfind.
    + eexists.
      split; [exact (sincronizza_componente_trovato _ _ _ _ _ _ _ Hst Hfind) |].
      cbn [_salva_componenti GC.componenti].
      apply list_find_Some in Hfind as (Hi & _ & _).
      rewrite <- (list_insert_id _ _ _ Hi) at 1.
      apply Forall2_insert; [apply stessi_campi_fissi_refl |].
      repeat split.
    + exists gc. split; [| apply stessi_campi_fissi_refl].
      apply sincronizza_componente_assente. right.
      unfold cerca_componente_per_nome. now rewrite Hfind.
  - exists gc. split; [| apply stessi_campi_fissi_refl].
    apply sincronizza_componente_assente. now left.
Qed.

Lemma for_each_sincronizza_componente dc stato l gc :
  exists gc',
    for_each l (fun componente _ => sincronizza_componente dc stato componente)
             tt gc = (Ok tt, gc') /\
    Forall2 stessi_campi_fissi (GC.componenti gc) (GC.componenti gc').
Proof.
  revert gc. induction l as [| r l IH]; intros gc.
  - exists gc. split; [reflexivity | apply stessi_campi_fissi_refl].
  - destruct (sincronizza_componente_campi dc stato r gc) as (gc1 & H1 & F1).
    destruct (IH gc1) as (gc2 & H2 & F2).
    exists gc2. split; [| eapply stessi_campi_fissi_trans; eassumption].
    cbn [for_each]. unfold bind at 1. rewrite H1. exact H2.
Qed.

(** The whole synchronisation succeeds and touches only the registry. *)
Lemma sincronizza_spec dc l s :
  exists s',
    sincronizza dc l s = (Ok tt, s') /\
    GE.workbook s' = GE.workbook s /\
    GE.gestore_sn s' = GE.gestore_sn s /\
    registro_conservato s s'.
Proof.
  unfold sincronizza, registro_conservato.
  destruct (GE.gestione_componenti s) as [gc |] eqn:Hgc.
  - destruct (for_each_sincronizza_componente dc
                (GSN.stato (GE.gestore_sn s)) l gc) as (gc' & Hrun & Hf).
    rewrite Hrun. eexists. split; [reflexivity |]. cbn.
    repeat split. now exists gc'.
  - exists s. now rewrite Hgc.
Qed.

(** Allocations and rows leave the registry alone. *)
Lemma elemento_registro now ds f bp bv bus ci p primo s :
  GE.gestione_componenti (snd (elemento now ds f bp bv bus ci p primo s))
  = GE.gestione_componenti s.
Proof.
  unfold elemento.
  destruct (primo !! CompInfo.nome ci) as [b |]; [| reflexivity].
  unfold bind at 1, ret at 1. unfold bind at 1, con_gestore_sn at 1.
  destruct (_ (GE.gestore_sn s)) as [[sn | e] g]; [| reflexivity].
  unfold bind at 1, lift_result at 1.
  destruct (tipo_scheda ci p); reflexivity.
Qed.

Lemma ciclo_principale_registro now ds f bp bv n b0 cis s :
  registro_conservato s (snd (ciclo_principale now ds f bp bv n b0 cis s)).
Proof.
  unfold ciclo_principale.
  apply for_each_frame;
    [apply registro_conservato_refl | apply registro_conservato_trans |].
  intros bus_idx acc s1. unfold ciclo_bus.
  apply for_each_frame;
    [apply registro_conservato_refl | apply registro_conservato_trans |].
  intros ci acc2 s2. unfold ciclo_componente.
  apply for_each_frame;
    [apply registro_conservato_refl | apply registro_conservato_trans |].
  intros p acc3 s3. apply registro_conservato_uguale, elemento_registro.
Qed.

Lemma crea_documento_con_componenti_registro
    now ds dc bp bv n componenti b0 f s :
  registro_conservato s
    (snd (crea_documento_con_componenti now ds dc bp bv n componenti b0 f s)).
Proof.
  unfold crea_documento_con_componenti.
  destruct (_ || _); [apply registro_conservato_refl |].
  destruct (n <=? 0); [apply registro_conservato_refl |].
  destruct (_ =? _)%nat; [apply registro_conservato_refl |].
  apply bind_frame; [apply registro_conservato_trans | | intros _ s1].
  { now apply registro_conservato_uguale. }
  apply bind_frame; [apply registro_conservato_trans | | intros cis s2].
  { unfold precalcolo. rewrite for_each_passo_precalcolo_stato.
    apply registro_conservato_refl. }
  apply bind_frame; [apply registro_conservato_trans | | intros _ s3].
  { apply ciclo_principale_registro. }
  apply bind_frame; [apply registro_conservato_trans | | intros _ s4].
  { destruct (sincronizza_spec dc componenti s3) as (s' & -> & _ & _ & Hr).
    exact Hr. }
  apply registro_conservato_refl.
Qed.

(** C10. The write-back after a run changes, in the registry, only the
    resume point and the index policy: whatever the run, every entry keeps
    its name, part code, card prefix and indexing flag (so a part code
    supplied for the run is not stored); and the entry of a component of
    the run that has a serial state gets [ultimo_sn + 1] as its resume
    point and the policy given for the run. *)
Theorem C10_sincronizzazione_campi
    (now : nat -> datetime) (disco_stato disco_componenti : nat -> bool)
    (bolla_produzione bolla_vendita : string) (numero_bus : Z)
    (componenti : list Richiesta.t) (bus_iniziale : Z) (fornitore : string)
    (self : GE.t) (gc : GC.t)
    (Hgc : GE.gestione_componenti self = Some gc) :
  (exists gc',
     GE.gestione_componenti
       (snd (crea_documento_con_componenti now disco_stato disco_componenti
               bolla_produzione bolla_vendita numero_bus componenti
               bus_iniziale fornitore self)) = Some gc' /\
     Forall2 stessi_campi_fissi (GC.componenti gc) (GC.componenti gc')) /\
  (forall stato r st i c,
     stato !! Richiesta.nome r = Some st ->
     list_find (fun comp => Componente.nome comp = Richiesta.nome r)
               (GC.componenti gc) = Some (i, c) ->
     exists gc',
       sincronizza_componente disco_componenti stato r gc = (Ok tt, gc') /\
       GC.componenti gc' =
         <[i := Componente.mk
                  (Componente.nome c) (Componente.code_12nc c)
                  (Some (Stato.ultimo_sn st + 1))
                  (Componente.prefisso_tipo_scheda c)
                  (Componente.indicizzazione c)
                  (Richiesta.inizio_indicizzazione_prefisso r)]>
           (GC.componenti gc)).
Proof.
  split.
  - pose proof (crea_documento_con_componenti_registro
                  now disco_stato disco_componenti bolla_produzione
                  bolla_vendita numero_bus componenti bus_iniziale fornitore
                  self) as Hr.
    unfold registro_conservato in Hr. now rewrite Hgc in Hr.
  - intros stato r st i c Hst Hfind. eexists. split.
    + exact (sincronizza_componente_trovato _ _ _ _ _ _ _ Hst Hfind).
    + reflexivity.
Qed.

Lemma C10_sincronizzazione_campi_witness :
  (exists gc',
     GE.gestione_componenti
       (snd (crea_documento_con_componenti
               (sempre giugno_2025) (sempre true) (sempre true)
               "BP1" "BV1" 2 [richiesta_sensor; richiesta_relay] 5
               "TECHRAIL" ge_iniziale)) = Some gc' /\
     Forall2 stessi_campi_fissi (GC.componenti gc_due) (GC.componenti gc')) /\
  (forall stato r st i c,
     stato !! Richiesta.nome r = Some st ->
     list_find (fun comp => Componente.nome comp = Richiesta.nome r)
               (GC.componenti gc_due) = Some (i, c) ->
     exists gc',
       sincronizza_componente (sempre true) stato r gc_due = (Ok tt, gc') /\
       GC.componenti gc' =
         <[i := Componente.mk
                  (Componente.nome c) (Componente.code_12nc c)
                  (Some (Stato.ultimo_sn st + 1))
                  (Componente.prefisso_tipo_scheda c)
                  (Componente.indicizzazione c)
                  (Richiesta.inizio_indicizzazione_prefisso r)]>
           (GC.componenti gc_due)).
Proof.
  apply (C10_sincronizzazione_campi
           (sempre giugno_2025) (sempre true) (sempre true)
           "BP1" "BV1" 2 [richiesta_sensor; richiesta_relay] 5
           "TECHRAIL" ge_iniziale gc_due).
  reflexivity.
Defined.

(** ** The index engine *)

Lemma getitem_in_range {A} (l : list A) (i : Z) :
  0 <= i < Z.of_nat (length l) ->
  exists x, l !! Z.to_nat i = Some x /\ Py.getitem l i = Ok x.
Proof.
  intros Hi. unfold Py.getitem.
  destruct (Z.ltb_spec i 0) as [? | _]; [lia |].
  destruct (Z.leb_spec 0 i) as [_ | ?]; [| lia].
  destruct (Z.ltb_spec i (Z.of_nat (length l))) as [_ | ?]; [| lia].
  cbn [andb].
  destruct (lookup_lt_is_Some_2 l (Z.to_nat i) ltac:(lia)) as [x Hx].
  exists x. now rewrite Hx.
Qed.

Lemma range_nonneg n p : p ∈ Py.range n -> 0 <= p.
Proof.
  unfold Py.range. intros (k & -> & _)%list_elem_of_fmap. lia.
Qed.

Lemma numero_indic_atteso policy p :
  0 <= p -> numero_indic policy p = Ok (indice_atteso policy p).
Proof.
  intros Hp. destruct policy as [| o | [| x l]]; try reflexivity.
  unfold numero_indic, indice_atteso.
  set (L := x :: l).
  assert (Hlen : 0 < Z.of_nat (length L)) by (subst L; simpl; lia).
  destruct (Z.ltb_spec 0 (Z.of_nat (length L))) as [_ | ?]; [| lia].
  destruct (getitem_in_range L (p mod Z.of_nat (length L)))
    as (y & Hy & ->); [apply Z.mod_pos_bound; lia |].
  now rewrite nth_lookup, Hy.
Qed.

Lemma tipo_scheda_attesa ci p :
  0 <= p ->
  tipo_scheda ci p =
    Ok (etichetta_attesa (CompInfo.prefisso_tipo_scheda ci)
                         (CompInfo.indicizzazione ci)
                         (CompInfo.inizio_indicizzazione_prefisso ci) p).
Proof.
  intros Hp. unfold tipo_scheda, etichetta_attesa.
  destruct (CompInfo.prefisso_tipo_scheda ci) as [prefisso |]; [| reflexivity].
  cbn [Py.truthy]. destruct (String.eqb prefisso ""); [reflexivity |].
  cbn [negb]. destruct (CompInfo.indicizzazione ci); [| reflexivity].
  now rewrite numero_indic_atteso.
Qed.

(** ** The main loop *)

(** One element, in closed form. *)
Lemma elemento_eq now ds f bp bv bus ci p (primo : gmap string bool) s
    (b : bool) :
  0 <= p ->
  primo !! CompInfo.nome ci = Some b ->
  let sn0 := if b then Some (CompInfo.prossimo_sn ci) else None in
  let code := if b then CompInfo.code_12nc ci else None in
  let g := GE.gestore_sn s in
  elemento now ds f bp bv bus ci p primo s =
    (Ok (if b then <[CompInfo.nome ci := false]> primo else primo),
     GE.mk ((fun righe => righe ++
               [Riga.mk f bp bv (CompInfo.nome ci) (CompInfo.code_12nc ci)
                  (serial_formattato (now (GSN.chiamate g))
                     (numero_incrementale g (CompInfo.nome ci) sn0))
                  ("BUS " +:+ Py.str bus)
                  (etichetta_attesa (CompInfo.prefisso_tipo_scheda ci)
                     (CompInfo.indicizzazione ci)
                     (CompInfo.inizio_indicizzazione_prefisso ci) p)
                  ""]) <$> GE.workbook s)
           (gsn_dopo now ds g (CompInfo.nome ci) sn0 code)
           (GE.gestione_componenti s)).
Proof.
  intros Hp Hb. cbv zeta. unfold elemento. rewrite Hb.
  unfold bind at 1, ret at 1. unfold bind at 1, con_gestore_sn at 1.
  rewrite tipo_scheda_attesa by assumption.
  destruct b; rewrite genera_serial_number_eq; reflexivity.
Qed.

(** A loop whose every iteration succeeds, keeps an invariant of the
    accumulator and adds rows to the sheet. *)
Lemma for_each_righe {A B X} (proj : Riga.t -> X) (Inv : B -> Prop)
    (l : list A) (body : A -> B -> M GE.t B) (attese : A -> list X) :
  (forall x acc s righe,
      x ∈ l -> Inv acc -> GE.workbook s = Some righe ->
      exists acc' s' nuove,
        body x acc s = (Ok acc', s') /\ Inv acc' /\
        GE.workbook s' = Some (righe ++ nuove) /\ proj <$> nuove = attese x) ->
  forall acc s righe,
    Inv acc -> GE.workbook s = Some righe ->
    exists acc' s' nuove,
      for_each l body acc s = (Ok acc', s') /\ Inv acc' /\
      GE.workbook s' = Some (righe ++ nuove) /\
      proj <$> nuove = l ≫= attese.
Proof.
  induction l as [| x l IH]; intros Hbody acc s righe Hinv Hwb.
  - exists acc, s, []. rewrite app_nil_r. repeat split; assumption.
  - destruct (Hbody x acc s righe ltac:(left) Hinv Hwb)
      as (acc1 & s1 & nuove1 & Hrun1 & Hinv1 & Hwb1 & Hp1).
    assert (Hbody' : forall y acc s righe,
               y ∈ l -> Inv acc -> GE.workbook s = Some righe ->
               exists acc' s' nuove,
                 body y acc s = (Ok acc', s') /\ Inv acc' /\
                 GE.workbook s' = Some (righe ++ nuove) /\
                 proj <$> nuove = attese y).
    { intros y acc0 s0 righe0 Hy. apply Hbody. now right. }
    destruct (IH Hbody' acc1 s1 _ Hinv1 Hwb1)
      as (acc2 & s2 & nuove2 & Hrun2 & Hinv2 & Hwb2 & Hp2).
    exists acc2, s2, (nuove1 ++ nuove2).
    split; [| split; [assumption | split]].
    + cbn [for_each]. unfold bind at 1. now rewrite Hrun1.
    + now rewrite Hwb2, app_assoc.
    + now rewrite fmap_app, Hp1, Hp2, bind_cons.
Qed.

Lemma flag_presenti_insert cis (primo : gmap string bool) nome b :
  flag_presenti cis primo -> flag_presenti cis (<[nome := b]> primo).
Proof.
  unfold flag_presenti. intros H.
  eapply Forall_impl; [exact H |]. cbn beta. intros ci [v Hv].
  destruct (decide (nome = CompInfo.nome ci)) as [-> | Hne].
  - rewrite lookup_insert_eq. eauto.
  - rewrite lookup_insert_ne by assumption. eauto.
Qed.

Lemma primo_utilizzo_iniziale_presenti cis :
  flag_presenti cis (primo_utilizzo_iniziale cis).
Proof.
  unfold primo_utilizzo_iniziale.
  assert (Hgen : forall acc : gmap string bool,
             forall nome, (is_Some (acc !! nome) \/
                           nome ∈ (CompInfo.nome <$> cis)) ->
             is_Some (foldl (fun d ci => <[CompInfo.nome ci := true]> d)
                            acc cis !! nome)).
  { induction cis as [| ci cis IH]; intros acc nome Hn; cbn [foldl].
    - destruct Hn as [Hn | Hn]; [assumption | now apply elem_of_nil in Hn].
    - apply IH. destruct Hn as [[v Hv] | Hn].
      + left. destruct (decide (CompInfo.nome ci = nome)) as [-> | Hne].
        * rewrite lookup_insert_eq. eauto.
        * rewrite lookup_insert_ne by assumption. eauto.
      + rewrite fmap_cons in Hn. apply elem_of_cons in Hn as [-> | Hn].
        * left. rewrite lookup_insert_eq. eauto.
        * now right. }
  apply Forall_forall. intros ci Hci. apply Hgen. right.
  now apply list_elem_of_fmap_2.
Qed.

Lemma ciclo_componente_righe now ds f bp bv bus cis ci primo s righe :
  ci ∈ cis -> flag_presenti cis primo -> GE.workbook s = Some righe ->
  exists primo' s' nuove,
    ciclo_componente now ds f bp bv bus ci primo s = (Ok primo', s') /\
    flag_presenti cis primo' /\
    GE.workbook s' = Some (righe ++ nuove) /\
    colonne <$> nuove = colonne_bus bus ci.
Proof.
  intros Hci. unfold ciclo_componente, colonne_bus.
  apply for_each_righe. clear primo s righe.
  intros p primo s righe Hp Hinv Hwb.
  apply range_nonneg in Hp.
  destruct (proj1 (Forall_forall _ _) Hinv ci Hci) as [b Hb].
  eexists _, _, _. split; [apply (elemento_eq _ _ _ _ _ _ _ _ _ _ b Hp Hb) |].
  split; [destruct b; [now apply flag_presenti_insert | assumption] |].
  cbn [GE.workbook]. rewrite Hwb. split; reflexivity.
Qed.

Lemma ciclo_bus_righe now ds f bp bv b0 cis bus_idx primo s righe :
  flag_presenti cis primo -> GE.workbook s = Some righe ->
  exists primo' s' nuove,
    ciclo_bus now ds f bp bv b0 cis bus_idx primo s = (Ok primo', s') /\
    flag_presenti cis primo' /\
    GE.workbook s' = Some (righe ++ nuove) /\
    colonne <$> nuove = cis ≫= colonne_bus (b0 + bus_idx).
Proof.
  unfold ciclo_bus. apply for_each_righe.
  intros ci acc s1 righe1 Hci. now apply ciclo_componente_righe.
Qed.

Lemma ciclo_principale_righe now ds f bp bv n b0 cis s righe :
  GE.workbook s = Some righe ->
  exists primo' s' nuove,
    ciclo_principale now ds f bp bv n b0 cis s = (Ok primo', s') /\
    GE.workbook s' = Some (righe ++ nuove) /\
    colonne <$> nuove =
      (bus_idx ← Py.range n; cis ≫= colonne_bus (b0 + bus_idx)).
Proof.
  intros Hwb. unfold ciclo_principale.
  destruct (for_each_righe colonne (flag_presenti cis) (Py.range n)
              (ciclo_bus now ds f bp bv b0 cis)
              (fun bus_idx => cis ≫= colonne_bus (b0 + bus_idx)))
    with (acc := primo_utilizzo_iniziale cis) (s := s) (righe := righe)
    as (primo' & s' & nuove & Hrun & _ & Hwb' & Hcol).
  - intros bus_idx acc s1 righe1 _. apply ciclo_bus_righe.
  - apply primo_utilizzo_iniziale_presenti.
  - assumption.
  - now exists primo', s', nuove.
Qed.

Lemma colonne_bus_calcolato bus componenti cis :
  Forall2 calcolato_da componenti cis ->
  cis ≫= colonne_bus bus =
  (r ← componenti;
   p ← Py.range (default 1 (Richiesta.quantita r));
   [("BUS " +:+ Py.str bus,
     etichetta_attesa (Richiesta.prefisso_tipo_scheda r)
                      (default true (Richiesta.indicizzazione r))
                      (Richiesta.inizio_indicizzazione_prefisso r) p)]).
Proof.
  induction 1 as [| r ci componenti cis (Hn & Hq & Hp & Hi & Hpol) _ IH];
    [reflexivity |].
  rewrite !bind_cons, IH. f_equal.
  unfold colonne_bus. now rewrite Hq, Hp, Hi, Hpol.
Qed.

(** A run that passes the checks succeeds, and its (bus, label) columns
    are the expected ones. *)
Lemma crea_documento_con_componenti_colonne
    now ds dc bp bv n componenti b0 f self :
  bp <> "" -> bv <> "" -> 0 < n -> componenti <> [] ->
  Forall (fun r => ~ senza_codice (GSN.stato (GE.gestore_sn self)) r)
         componenti ->
  exists righe self',
    crea_documento_con_componenti now ds dc bp bv n componenti b0 f self
      = (Ok righe, self') /\
    colonne <$> righe = colonne_attese n b0 componenti.
Proof.
  intros Hbp Hbv Hn Hne Hcod. unfold crea_documento_con_componenti.
  destruct (String.eqb_spec bp "") as [? | _]; [contradiction |].
  destruct (String.eqb_spec bv "") as [? | _]; [contradiction |].
  cbn [orb]. destruct (Z.leb_spec n 0) as [? | _]; [lia |].
  destruct componenti as [| r0 rest] eqn:Hcomp; [contradiction |].
  rewrite <- Hcomp in *. replace (length componenti =? 0)%nat with false
    by (subst componenti; reflexivity).
  set (s1 := GE.mk (Some []) (GE.gestore_sn self)
                   (GE.gestione_componenti self)).
  destruct (for_each_passo_precalcolo_ok componenti [] s1 Hcod)
    as (cis & Hpre & Hda).
  destruct (ciclo_principale_righe now ds f bp bv n b0 cis s1 []
              ltac:(reflexivity))
    as (primo' & s2 & nuove & Hrun & Hwb2 & Hcol).
  destruct (sincronizza_spec dc componenti s2) as (s3 & Hsync & Hwb3 & _).
  exists nuove, s3. split.
  - unfold bind at 1, modify at 1. fold s1.
    unfold bind at 1, precalcolo. rewrite Hpre. cbn [app].
    unfold bind at 1. rewrite Hrun.
    unfold bind at 1. rewrite Hsync.
    unfold bind, get, ret. now rewrite Hwb3, Hwb2.
  - rewrite Hcol. unfold colonne_attese.
    apply list_bind_ext; [| reflexivity].
    intros bus_idx. now apply colonne_bus_calcolato.
Qed.

(** A run that returns has passed every check. *)
Lemma crea_documento_con_componenti_controlli
    now ds dc bp bv n componenti b0 f self righe self' :
  crea_documento_con_componenti now ds dc bp bv n componenti b0 f self
    = (Ok righe, self') ->
  bp <> "" /\ bv <> "" /\ 0 < n /\ componenti <> [] /\
  Forall (fun r => ~ senza_codice (GSN.stato (GE.gestore_sn self)) r)
         componenti.
Proof.
  unfold crea_documento_con_componenti.
  destruct (String.eqb_spec bp "") as [Hbp | Hbp]; [discriminate |].
  destruct (String.eqb_spec bv "") as [Hbv | Hbv]; [discriminate |].
  cbn [orb]. destruct (Z.leb_spec n 0) as [Hn | Hn]; [discriminate |].
  destruct (Nat.eqb_spec (length componenti) 0) as [Hlen | Hlen];
    [discriminate |].
  intros Hrun.
  destruct (senza_codice_tutti_o_uno (GSN.stato (GE.gestore_sn self))
              componenti) as [Hall | Hex].
  - repeat split; try assumption. intros ->. now apply Hlen.
  - exfalso. revert Hrun.
    set (s1 := GE.mk (Some []) (GE.gestore_sn self)
                     (GE.gestione_componenti self)).
    destruct (for_each_passo_precalcolo_fallisce componenti [] s1 Hex)
      as (c & _ & _ & Hf).
    unfold bind at 1, modify at 1. fold s1.
    unfold bind at 1, precalcolo. rewrite Hf. discriminate.
Qed.

(** C4. At position [p] of a bus the index is [p + 1] without a policy,
    [o + p] with the offset [o], and the element [p mod length L] of a
    non-empty list [L]; and in every run that returns its sheet the labels
    are those of positions counted from 0 in every bus: the (bus, label)
    columns of the sheet are, bus after bus, the same per-bus sequence. *)
Theorem C4_indice_per_posizione
    (now : nat -> datetime) (disco_stato disco_componenti : nat -> bool)
    (bolla_produzione bolla_vendita : string) (numero_bus : Z)
    (componenti : list Richiesta.t) (bus_iniziale : Z) (fornitore : string)
    (self : GE.t) :
  (forall p, 0 <= p ->
     numero_indic PNone p = Ok (p + 1) /\
     (forall o, numero_indic (PInt o) p = Ok (o + p)) /\
     (forall L, L <> [] ->
        exists x, L !! Z.to_nat (p mod Z.of_nat (length L)) = Some x /\
                  numero_indic (PList L) p = Ok x)) /\
  forall (righe : list Riga.t) (self' : GE.t),
    crea_documento_con_componenti now disco_stato disco_componenti
      bolla_produzione bolla_vendita numero_bus componenti bus_iniziale
      fornitore self = (Ok righe, self') ->
    colonne <$> righe = colonne_attese numero_bus bus_iniziale componenti.
Proof.
  split.
  - intros p Hp. split; [reflexivity |]. split; [reflexivity |].
    intros L HL. unfold numero_indic.
    assert (Hlen : 0 < Z.of_nat (length L)) by (destruct L; [congruence | simpl; lia]).
    destruct (Z.ltb_spec 0 (Z.of_nat (length L))) as [_ | ?]; [| lia].
    apply getitem_in_range, Z.mod_pos_bound. lia.
  - intros righe self' Hrun.
    destruct (crea_documento_con_componenti_controlli _ _ _ _ _ _ _ _ _ _ _ _
                Hrun) as (Hbp & Hbv & Hn & Hne & Hcod).
    destruct (crea_documento_con_componenti_colonne now disco_stato
                disco_componenti bolla_produzione bolla_vendita numero_bus
                componenti bus_iniziale fornitore self Hbp Hbv Hn Hne Hcod)
      as (righe1 & self1 & Hrun1 & Hcol).
    rewrite Hrun in Hrun1. now injection Hrun1 as <- <-.
Qed.

Lemma C4_indice_per_posizione_witness :
  (forall p, 0 <= p ->
     numero_indic PNone p = Ok (p + 1) /\
     (forall o, numero_indic (PInt o) p = Ok (o + p)) /\
     (forall L, L <> [] ->
        exists x, L !! Z.to_nat (p mod Z.of_nat (length L)) = Some x /\
                  numero_indic (PList L) p = Ok x)) /\
  exists (righe : list Riga.t) (self' : GE.t),
    crea_documento_con_componenti
      (sempre giugno_2025) (sempre true) (sempre true)
      "BP1" "BV1" 2 [richiesta_sensor; richiesta_relay] 5 "TECHRAIL"
      ge_iniziale = (Ok righe, self') /\
    colonne <$> righe =
      colonne_attese 2 5 [richiesta_sensor; richiesta_relay].
Proof.
  destruct (C4_indice_per_posizione
              (sempre giugno_2025) (sempre true) (sempre true)
              "BP1" "BV1" 2 [richiesta_sensor; richiesta_relay] 5 "TECHRAIL"
              ge_iniziale) as [Hindice Hrighe].
  split; [exact Hindice |].
  eexists _, _. split; [vm_compute; reflexivity |].
  eapply Hrighe. vm_compute. reflexivity.
Defined.

Example colonne_attese_esempio :
  colonne_attese 2 5 [richiesta_sensor; richiesta_relay] =
    [("BUS 5", "SU1"); ("BUS 5", "RL1"); ("BUS 5", "RL3"); ("BUS 5", "RL5");
     ("BUS 6", "SU1"); ("BUS 6", "RL1"); ("BUS 6", "RL3"); ("BUS 6", "RL5")].
Proof. vm_compute. reflexivity. Qed.





(** ** The allocator across calls *)

(** A generic loop whose body always succeeds and keeps an invariant. *)
Lemma for_each_inv {St A B} (Inv : B -> St -> Prop) (l : list A)
    (body : A -> B -> M St B) :
  (forall x acc s, x ∈ l -> Inv acc s ->
     exists acc' s', body x acc s = (Ok acc', s') /\ Inv acc' s') ->
  forall acc s, Inv acc s ->
    exists acc' s', for_each l body acc s = (Ok acc', s') /\ Inv acc' s'.
Proof.
  induction l as [| x l IH]; intros Hbody acc s Hinv.
  - now exists acc, s.
  - destruct (Hbody x acc s ltac:(left) Hinv) as (acc1 & s1 & Hrun1 & Hinv1).
    destruct (IH (fun y a t Hy => Hbody y a t ltac:(right; exact Hy))
                 acc1 s1 Hinv1) as (acc2 & s2 & Hrun2 & Hinv2).
    exists acc2, s2. split; [| assumption].
    cbn [for_each]. unfold bind at 1. now rewrite Hrun1.
Qed.

Lemma get_ultimo_sn_gsn_dopo now disco self d sn0 code d' :
  get_ultimo_sn (gsn_dopo now disco self d sn0 code) d' =
    if decide (d = d') then numero_incrementale self d sn0
    else get_ultimo_sn self d'.
Proof.
  unfold get_ultimo_sn, gsn_dopo. cbn [GSN.stato].
  rewrite lookup_insert. now destruct (decide (d = d')).
Qed.

Lemma numero_incrementale_auto self d :
  numero_incrementale self d None = get_ultimo_sn self d + 1.
Proof.
  unfold numero_incrementale, get_ultimo_sn.
  now destruct (GSN.stato self !! d).
Qed.

(** X1. After any sequence of allocations without override, for any
    descriptions and codes, [get_ultimo_sn] of a description has grown by
    exactly the number of allocations made for it: the counters of one
    description are consecutive whatever is allocated in between, and the
    value -1 of an unknown description makes its first counter 0. *)
Theorem genera_serial_number_sequenza
    (now : nat -> datetime) (disco : nat -> bool)
    (richieste : list (string * option string)) (self : GSN.t) (d : string) :
  exists self',
    for_each richieste
      (fun x _ => let* _ := genera_serial_number now disco x.1 None x.2 in
                  ret tt) tt self = (Ok tt, self') /\
    get_ultimo_sn self' d =
      get_ultimo_sn self d
      + Z.of_nat (length (filter (fun x => x.1 = d) richieste)).
Proof.
  revert self. induction richieste as [| [d0 c0] l IH]; intros self.
  - exists self. split; [reflexivity | cbn; lia].
  - destruct (IH (gsn_dopo now disco self d0 None c0)) as (self' & Hrun & Hn).
    exists self'. split.
    + cbn [for_each]. unfold bind at 1, bind at 1.
      rewrite genera_serial_number_eq. unfold ret at 1. exact Hrun.
    + rewrite Hn, get_ultimo_sn_gsn_dopo, numero_incrementale_auto.
      rewrite filter_cons. cbn [fst].
      destruct (decide (d0 = d)) as [-> | Hne]; cbn [length]; lia.
Qed.

(** X2. When the write of an allocation goes through, the file holds the
    state in memory: an allocator started afresh from that file has the
    same state, and its next automatic allocation for the description
    issues the counter just issued plus one. *)
Theorem genera_serial_number_ricarica
    (now : nat -> datetime) (disco : nat -> bool) (self : GSN.t)
    (d : string) (sn0 : option Z) (code : option string)
    (Hok : disco (GSN.scritture self) = true) :
  let self' := snd (genera_serial_number now disco d sn0 code self) in
  _carica_stato (GSN.file_stato self') = GSN.stato self' /\
  GSN.stato (gsn_init (GSN.file_stato self')) = GSN.stato self' /\
  numero_incrementale (gsn_init (GSN.file_stato self')) d None
    = numero_incrementale self d sn0 + 1.
Proof.
  cbv zeta. rewrite genera_serial_number_eq. cbn [snd].
  unfold gsn_dopo at 1 2 3. cbn [GSN.file_stato GSN.stato]. rewrite Hok.
  split; [reflexivity |]. split; [reflexivity |].
  rewrite numero_incrementale_auto. unfold get_ultimo_sn, gsn_init.
  cbn [GSN.stato _carica_stato default]. unfold gsn_dopo.
  cbn [GSN.file_stato GSN.stato]. rewrite Hok. cbn.
  now rewrite lookup_insert_eq.
Qed.

Lemma genera_serial_number_ricarica_witness :
  _carica_stato
    (GSN.file_stato
       (snd (genera_serial_number (sempre giugno_2025) (sempre true)
               "SENSOR" None (Some "ABC123") gsn_sensor)))
  = GSN.stato
      (snd (genera_serial_number (sempre giugno_2025) (sempre true)
              "SENSOR" None (Some "ABC123") gsn_sensor)) /\
  GSN.stato
    (gsn_init
       (GSN.file_stato
          (snd (genera_serial_number (sempre giugno_2025) (sempre true)
                  "SENSOR" None (Some "ABC123") gsn_sensor))))
  = GSN.stato
      (snd (genera_serial_number (sempre giugno_2025) (sempre true)
              "SENSOR" None (Some "ABC123") gsn_sensor)) /\
  numero_incrementale
    (gsn_init
       (GSN.file_stato
          (snd (genera_serial_number (sempre giugno_2025) (sempre true)
                  "SENSOR" None (Some "ABC123") gsn_sensor))))
    "SENSOR" None
  = numero_incrementale gsn_sensor "SENSOR" None + 1.
Proof.
  apply (genera_serial_number_ricarica
           (sempre giugno_2025) (sempre true) gsn_sensor
           "SENSOR" None (Some "ABC123")).
  reflexivity.
Defined.

Lemma append_inj_length (s1 s2 t1 t2 : string) :
  String.length s1 = String.length s2 ->
  s1 +:+ t1 = s2 +:+ t2 -> s1 = s2 /\ t1 = t2.
Proof.
  revert s2. induction s1 as [| c s1 IH]; intros [| c2 s2] Hlen Heq;
    try discriminate Hlen.
  - now rewrite !append_nil in Heq.
  - rewrite !append_cons in Heq. injection Heq as -> Heq.
    destruct (IH s2 ltac:(simpl in Hlen; lia) Heq) as [-> ->]. now split.
Qed.

Lemma lettera_del_mese_inj (m1 m2 : Z) :
  1 <= m1 <= 12 -> 1 <= m2 <= 12 ->
  lettera_del_mese m1 = lettera_del_mese m2 -> m1 = m2.
Proof.
  intros H1 H2 Heq. unfold lettera_del_mese in Heq.
  apply (f_equal nat_of_ascii) in Heq.
  rewrite !nat_ascii_embedding in Heq by lia. lia.
Qed.

Lemma month_range (ora : datetime) : 1 <= month ora <= 12.
Proof.
  pose proof (month_ok ora) as Hm.
  apply Is_true_true, andb_true_iff in Hm as [H1 H2].
  apply Z.leb_le in H1, H2. lia.
Qed.

(** A serial determines the month, the two-digit year and the counter. *)
Lemma serial_formattato_inj (ora1 ora2 : datetime) (n1 n2 : Z) :
  0 <= n1 -> 0 <= n2 ->
  serial_formattato ora1 n1 = serial_formattato ora2 n2 ->
  month ora1 = month ora2 /\
  year ora1 mod 100 = year ora2 mod 100 /\
  n1 = n2.
Proof.
  intros Hn1 Hn2 Heq. unfold serial_formattato in Heq.
  injection Heq as Hl Hrest.
  assert (Hy1 : 0 <= year ora1 mod 100 < 100) by (apply Z.mod_pos_bound; lia).
  assert (Hy2 : 0 <= year ora2 mod 100 < 100) by (apply Z.mod_pos_bound; lia).
  destruct (format_0d_nonneg 2 (year ora1 mod 100) ltac:(lia))
    as (Hv1 & _ & Hlen1).
  destruct (format_0d_nonneg 2 (year ora2 mod 100) ltac:(lia))
    as (Hv2 & _ & Hlen2).
  apply append_inj_length in Hrest as [Hyy Hnn];
    [| rewrite Hlen1, Hlen2 by (simpl; lia); reflexivity].
  split; [apply lettera_del_mese_inj; auto using month_range |].
  split.
  - rewrite Hyy in Hv1. congruence.
  - rewrite !append_cons, !append_nil in Hnn. injection Hnn as Hnn.
    destruct (format_0d_nonneg 5 n1 Hn1) as (Hw1 & _).
    destruct (format_0d_nonneg 5 n2 Hn2) as (Hw2 & _).
    rewrite Hnn in Hw1. congruence.
Qed.

(** X3. Two allocations with non-negative counters, in any two states and
    for any descriptions, return the same serial only if they were made in
    the same month and two-digit year and issued the same counter: within
    one month no two counters share a serial. *)
Theorem genera_serial_number_iniettiva
    (now1 now2 : nat -> datetime) (disco1 disco2 : nat -> bool)
    (self1 self2 : GSN.t) (d1 d2 : string) (sn1 sn2 : option Z)
    (code1 code2 : option string)
    (Hn1 : 0 <= numero_incrementale self1 d1 sn1)
    (Hn2 : 0 <= numero_incrementale self2 d2 sn2)
    (Heq : fst (genera_serial_number now1 disco1 d1 sn1 code1 self1)
           = fst (genera_serial_number now2 disco2 d2 sn2 code2 self2)) :
  month (now1 (GSN.chiamate self1)) = month (now2 (GSN.chiamate self2)) /\
  year (now1 (GSN.chiamate self1)) mod 100
    = year (now2 (GSN.chiamate self2)) mod 100 /\
  get_ultimo_sn (snd (genera_serial_number now1 disco1 d1 sn1 code1 self1)) d1
    = get_ultimo_sn
        (snd (genera_serial_number now2 disco2 d2 sn2 code2 self2)) d2.
Proof.
  rewrite !genera_serial_number_eq in *. cbn [fst snd] in *.
  assert (Hsn : serial_formattato (now1 (GSN.chiamate self1))
                                  (numero_incrementale self1 d1 sn1)
                = serial_formattato (now2 (GSN.chiamate self2))
                                    (numero_incrementale self2 d2 sn2)).
  { set (a := serial_formattato _ _) in *.
    set (b := serial_formattato _ _) in *. congruence. }
  destruct (serial_formattato_inj _ _ _ _ Hn1 Hn2 Hsn) as (Hm & Hy & Hn).
  rewrite !get_ultimo_sn_gsn_dopo, !decide_True by reflexivity.
  auto.
Qed.

(** X4. The bounds of the month table: months 1 to 12 give their letter;
    a month from -11 to 0 does not fail but gives the letter of that month
    plus twelve (the table is read from its end); any other month raises
    [IndexError]. *)
Theorem _get_mese_lettera_limiti (mese : Z) :
  (1 <= mese <= 12 -> _get_mese_lettera mese = Ok (lettera_del_mese mese)) /\
  (-11 <= mese <= 0 ->
   _get_mese_lettera mese = Ok (lettera_del_mese (mese + 12))) /\
  (mese < -11 \/ 12 < mese -> _get_mese_lettera mese = Raise IndexError).
Proof.
  split; [| split].
  - intros H.
    assert (Hc : mese = 1 \/ mese = 2 \/ mese = 3 \/ mese = 4 \/ mese = 5 \/
                 mese = 6 \/ mese = 7 \/ mese = 8 \/ mese = 9 \/ mese = 10 \/
                 mese = 11 \/ mese = 12) by lia.
    repeat (destruct Hc as [-> | Hc]; [reflexivity |]). now subst.
  - intros H.
    assert (Hc : mese = 0 \/ mese = -1 \/ mese = -2 \/ mese = -3 \/
                 mese = -4 \/ mese = -5 \/ mese = -6 \/ mese = -7 \/
                 mese = -8 \/ mese = -9 \/ mese = -10 \/ mese = -11) by lia.
    repeat (destruct Hc as [-> | Hc]; [reflexivity |]). now subst.
  - intros H. unfold _get_mese_lettera, Py.getitem.
    change (Z.of_nat (length lettere)) with 12.
    destruct (Z.ltb_spec (mese - 1) 0).
    + destruct (Z.leb_spec 0 (mese - 1 + 12)); [lia | reflexivity].
    + destruct (Z.leb_spec 0 (mese - 1)); [| lia].
      destruct (Z.ltb_spec (mese - 1) 12); [lia | reflexivity].
Qed.

Lemma genera_serial_number_iniettiva_witness :
  month (sempre giugno_2025 (GSN.chiamate gsn_vuoto))
  = month (sempre giugno_2025 (GSN.chiamate gsn_sensor)) /\
  year (sempre giugno_2025 (GSN.chiamate gsn_vuoto)) mod 100
  = year (sempre giugno_2025 (GSN.chiamate gsn_sensor)) mod 100 /\
  get_ultimo_sn
    (snd (genera_serial_number (sempre giugno_2025) (sempre true)
            "RELAY" None None gsn_vuoto)) "RELAY"
  = get_ultimo_sn
      (snd (genera_serial_number (sempre giugno_2025) (sempre false)
              "SENSOR" (Some 0) (Some "ABC123") gsn_sensor)) "SENSOR".
Proof.
  apply (genera_serial_number_iniettiva
           (sempre giugno_2025) (sempre giugno_2025)
           (sempre true) (sempre false) gsn_vuoto gsn_sensor
           "RELAY" "SENSOR" None (Some 0) None (Some "ABC123")).
  - now vm_compute.
  - now vm_compute.
  - reflexivity.
Defined.

(** ** Lookups in the registry *)

Lemma cerca_in_cons x l n :
  cerca_in (x :: l) n =
    if decide (Componente.nome x = n) then Some x else cerca_in l n.
Proof.
  unfold cerca_in. cbn [list_find]. destruct (decide _); [reflexivity |].
  rewrite <- option_fmap_compose. apply option_fmap_ext. now intros [].
Qed.

Lemma cerca_in_app l k n :
  cerca_in (l ++ k) n =
    match cerca_in l n with Some x => Some x | None => cerca_in k n end.
Proof.
  induction l as [| x l IH]; [reflexivity |].
  rewrite <- app_comm_cons, !cerca_in_cons. now destruct (decide _).
Qed.

Lemma cerca_in_filter l n m :
  cerca_in (filter (fun c => Componente.nome c <> m) l) n =
    if decide (n = m) then None else cerca_in l n.
Proof.
  induction l as [| x l IH].
  - now destruct (decide _).
  - rewrite filter_cons, cerca_in_cons.
    destruct (decide (Componente.nome x <> m)) as [Hx | Hx].
    + rewrite cerca_in_cons, IH.
      destruct (decide (Componente.nome x = n)), (decide (n = m));
        congruence.
    + rewrite IH. apply dec_stable in Hx.
      destruct (decide (Componente.nome x = n)), (decide (n = m));
        congruence.
Qed.

(** Replacing the first entry named [n0] by one of the same name. *)
Lemma cerca_in_insert l i c c' n0 n :
  list_find (fun comp => Componente.nome comp = n0) l = Some (i, c) ->
  Componente.nome c' = n0 ->
  cerca_in (<[i := c']> l) n =
    if decide (n = n0) then Some c' else cerca_in l n.
Proof.
  revert i. induction l as [| x l IH]; intros i Hfind Hc'; [discriminate |].
  cbn [list_find] in Hfind. destruct (decide (Componente.nome x = n0)) as [Hx | Hx].
  - injection Hfind as <- <-.
    change (<[0%nat := c']> (x :: l)) with (c' :: l). rewrite !cerca_in_cons.
    destruct (decide (n = n0)) as [-> | Hn].
    + now rewrite decide_True.
    + rewrite !decide_False by congruence. reflexivity.
  - destruct (list_find _ l) as [[j y] |] eqn:Hl; [| discriminate].
    cbn in Hfind. injection Hfind as <- <-.
    change (<[S j := c']> (x :: l)) with (x :: <[j := c']> l).
    rewrite !cerca_in_cons, (IH j eq_refl Hc').
    destruct (decide (Componente.nome x = n)), (decide (n = n0)); congruence.
Qed.

Lemma cerca_in_Some l n c :
  cerca_in l n = Some c ->
  exists i, list_find (fun comp => Componente.nome comp = n) l = Some (i, c).
Proof.
  unfold cerca_in. destruct (list_find _ l) as [[i x] |]; [| discriminate].
  cbn. intros [= ->]. now exists i.
Qed.

Lemma cerca_in_nome l n c : cerca_in l n = Some c -> Componente.nome c = n.
Proof.
  intros (i & Hf)%cerca_in_Some. now apply list_find_Some in Hf as (_ & ? & _).
Qed.

Lemma filter_tutti {A} (P : A -> Prop) `{forall x, Decision (P x)} (l : list A) :
  Forall P l -> filter P l = l.
Proof.
  induction 1 as [| x l Hx Hl IH]; [reflexivity |].
  now rewrite filter_cons_True, IH.
Qed.

(** X5. Adding a component: refused without any change for a name in
    use; otherwise the new entry is found under its name, it comes last,
    every other lookup is as before and unique names stay unique. *)
Theorem aggiungi_componente_cerca (dc : nat -> bool)
    (nome code : string) (sn : option Z) (pref : option string)
    (ind : bool) (pol : IndexPolicy) (self : GC.t) :
  (is_Some (cerca_componente_per_nome self nome) ->
   aggiungi_componente dc nome code sn pref ind pol self = (Ok false, self)) /\
  (cerca_componente_per_nome self nome = None ->
   exists self',
     aggiungi_componente dc nome code sn pref ind pol self = (Ok true, self') /\
     cerca_componente_per_nome self' nome
       = Some (Componente.mk nome code sn pref ind pol) /\
     (forall n, n <> nome ->
        cerca_componente_per_nome self' n = cerca_componente_per_nome self n) /\
     ottieni_nomi_componenti self' = ottieni_nomi_componenti self ++ [nome] /\
     (nomi_unici self -> nomi_unici self')).
Proof.
  split; [apply aggiungi_componente_esistente |].
  intros Hno. eexists. unfold aggiungi_componente at 1. rewrite Hno.
  split; [reflexivity |].
  change cerca_componente_per_nome
    with (fun s n => cerca_in (GC.componenti s) n) in *. cbn beta in *.
  cbn [_salva_componenti GC.componenti]. split; [| split; [| split]].
  - rewrite cerca_in_app, Hno, cerca_in_cons. now rewrite decide_True.
  - intros n Hn. rewrite cerca_in_app. destruct (cerca_in _ n); [reflexivity |].
    rewrite cerca_in_cons. cbn [Componente.nome].
    now rewrite decide_False by congruence.
  - unfold ottieni_nomi_componenti, _salva_componenti. cbn [GC.componenti].
    now rewrite fmap_app.
  - intros Hu.
    pose proof (aggiungi_componente_unici dc nome code sn pref ind pol self Hu)
      as Hu'.
    unfold aggiungi_componente in Hu'.
    change (cerca_componente_per_nome self nome)
      with (cerca_in (GC.componenti self) nome) in Hu'.
    now rewrite Hno in Hu'.
Qed.

(** Removing a name that is not there changes nothing. *)
Lemma elimina_componente_assente (dc : nat -> bool) (nome : string)
    (self : GC.t) :
  cerca_componente_per_nome self nome = None ->
  elimina_componente dc nome self = (Ok false, self).
Proof.
  intros Hno.
  assert (Hall : Forall (fun c => Componente.nome c <> nome)
                        (GC.componenti self)).
  { apply (proj1 (cerca_componente_per_nome_None self nome)) in Hno.
    apply Forall_forall. intros c Hc Heq. apply Hno.
    unfold ottieni_nomi_componenti. apply list_elem_of_fmap. eauto. }
  unfold elimina_componente. rewrite filter_tutti by assumption.
  rewrite Nat.ltb_irrefl. now destruct self.
Qed.

(** X6. Removing a name: afterwards the name is not found, whatever the
    number of entries that had it, and every other lookup is as before;
    the call reports success exactly when the name was there, and
    otherwise leaves the object as it was, with nothing written. *)
Theorem elimina_componente_cerca (dc : nat -> bool) (nome : string)
    (self : GC.t) :
  let r := elimina_componente dc nome self in
  cerca_componente_per_nome (snd r) nome = None /\
  (forall n, n <> nome ->
     cerca_componente_per_nome (snd r) n = cerca_componente_per_nome self n) /\
  (is_Some (cerca_componente_per_nome self nome) -> fst r = Ok true) /\
  (cerca_componente_per_nome self nome = None -> r = (Ok false, self)).
Proof.
  cbv zeta. unfold elimina_componente.
  set (rimasti := filter _ _).
  assert (Hcerca : forall n, cerca_in rimasti n =
            if decide (n = nome) then None
            else cerca_in (GC.componenti self) n)
    by (intros n; apply cerca_in_filter).
  change cerca_componente_per_nome
    with (fun s n => cerca_in (GC.componenti s) n). cbn beta.
  destruct (Nat.ltb_spec (length rimasti) (length (GC.componenti self)))
    as [Hlt | Hge]; cbn [fst snd _salva_componenti GC.componenti].
  - split; [rewrite Hcerca; now rewrite decide_True |].
    split; [intros n Hn; rewrite Hcerca; now rewrite decide_False |].
    split; [reflexivity |]. intros Hno. exfalso.
    pose proof (elimina_componente_assente dc nome self Hno) as He.
    unfold elimina_componente in He. fold rimasti in He.
    destruct (Nat.ltb_spec (length rimasti) (length (GC.componenti self)));
      [discriminate He | lia].
  - split; [rewrite Hcerca; now rewrite decide_True |].
    split; [intros n Hn; rewrite Hcerca; now rewrite decide_False |].
    assert (Hno : cerca_in (GC.componenti self) nome = None).
    { destruct (cerca_in (GC.componenti self) nome) as [c |] eqn:Hc;
        [| reflexivity].
      exfalso. pose proof (cerca_in_nome _ _ _ Hc) as Hn.
      apply cerca_in_Some in Hc as (i & Hf).
      apply list_find_Some in Hf as (Hi & _ & _).
      apply list_elem_of_lookup_2 in Hi.
      pose proof (length_filter_lt
                    (fun c => Componente.nome c <> nome) _ c Hi) as Hl.
      fold rimasti in Hl. specialize (Hl ltac:(intros H; now apply H)). lia. }
    split; [rewrite Hno; intros [? ?]; discriminate |].
    intros _.
    pose proof (elimina_componente_assente dc nome self Hno) as He.
    unfold elimina_componente in He. fold rimasti in He.
    destruct (Nat.ltb_spec (length rimasti) (length (GC.componenti self)));
      [discriminate He | exact He].
Qed.

(** X7. Setting the resume point by hand: for an unknown name nothing
    changes; otherwise the entry found under the name is the old one with
    the new resume point, and the names and every other lookup are as
    before. *)
Theorem aggiorna_sn_iniziale_cerca (dc : nat -> bool) (nome : string)
    (nuovo_sn : Z) (self : GC.t) :
  (cerca_componente_per_nome self nome = None ->
   aggiorna_sn_iniziale dc nome nuovo_sn self = (Ok false, self)) /\
  (forall c, cerca_componente_per_nome self nome = Some c ->
   exists self',
     aggiorna_sn_iniziale dc nome nuovo_sn self = (Ok true, self') /\
     cerca_componente_per_nome self' nome =
       Some (Componente.mk (Componente.nome c) (Componente.code_12nc c)
               (Some nuovo_sn) (Componente.prefisso_tipo_scheda c)
               (Componente.indicizzazione c)
               (Componente.inizio_indicizzazione_prefisso c)) /\
     (forall n, n <> nome ->
        cerca_componente_per_nome self' n = cerca_componente_per_nome self n) /\
     ottieni_nomi_componenti self' = ottieni_nomi_componenti self).
Proof.
  change cerca_componente_per_nome
    with (fun s n => cerca_in (GC.componenti s) n). cbn beta.
  unfold aggiorna_sn_iniziale. split.
  - unfold cerca_in. destruct (list_find _ _) as [[i c] |]; [discriminate |].
    reflexivity.
  - intros c (i & Hf)%cerca_in_Some. rewrite Hf. eexists.
    split; [reflexivity |]. cbn [_salva_componenti GC.componenti].
    pose proof Hf as (Hi & Hn & _)%list_find_Some.
    set (c' := Componente.mk _ _ _ _ _ _).
    assert (Hn' : Componente.nome c' = nome) by exact Hn.
    split; [| split].
    + rewrite (cerca_in_insert _ _ _ c' nome nome Hf Hn').
      now rewrite decide_True.
    + intros n Hne. rewrite (cerca_in_insert _ _ _ c' nome n Hf Hn').
      now rewrite decide_False.
    + unfold ottieni_nomi_componenti, _salva_componenti.
      cbn [GC.componenti]. rewrite list_fmap_insert.
      apply list_insert_id. now rewrite list_lookup_fmap, Hi.
Qed.

Lemma cerca_in_unici l n c :
  NoDup (Componente.nome <$> l) ->
  cerca_in l n = Some c <-> c ∈ l /\ Componente.nome c = n.
Proof.
  induction l as [| x l IH]; intros Hnd.
  - split; [discriminate | intros [H _]; now apply elem_of_nil in H].
  - rewrite fmap_cons in Hnd. apply NoDup_cons in Hnd as [Hx Hnd].
    rewrite cerca_in_cons. destruct (decide (Componente.nome x = n)) as [Hn | Hn].
    + split.
      * intros [= <-]. split; [left | assumption].
      * intros [[-> | Hin]%elem_of_cons Hc]; [reflexivity |].
        exfalso. apply Hx. rewrite Hn, <- Hc. now apply list_elem_of_fmap_2.
    + rewrite (IH Hnd). split.
      * intros [Hin Hc]. split; [now right | assumption].
      * intros [[-> | Hin]%elem_of_cons Hc]; [contradiction | now split].
Qed.

(** X8. An update of an existing entry under unique names, to the same
    name or to a fresh one: the new entry is found under the new name, the
    old name is gone after a renaming, the other lookups are as before and
    names stay unique. *)
Theorem modifica_componente_rinomina (dc : nat -> bool)
    (orig nuovo code : string) (sn : option Z) (pref : option string)
    (ind : bool) (pol : IndexPolicy) (self : GC.t)
    (Hu : nomi_unici self)
    (Hc : is_Some (cerca_componente_per_nome self orig))
    (Hn : nuovo = orig \/ nuovo ∉ ottieni_nomi_componenti self) :
  exists self',
    modifica_componente dc orig nuovo code sn pref ind pol self
      = (Ok true, self') /\
    cerca_componente_per_nome self' nuovo
      = Some (Componente.mk nuovo code sn pref ind pol) /\
    (nuovo <> orig -> cerca_componente_per_nome self' orig = None) /\
    (forall n, n <> orig -> n <> nuovo ->
       cerca_componente_per_nome self' n = cerca_componente_per_nome self n) /\
    nomi_unici self'.
Proof.
  pose proof (modifica_componente_unici dc orig nuovo code sn pref ind pol
                self Hu Hn) as Hu'.
  destruct Hc as [c Hc].
  change cerca_componente_per_nome
    with (fun s n => cerca_in (GC.componenti s) n) in *. cbn beta in *.
  apply cerca_in_Some in Hc as (i & Hf).
  unfold modifica_componente in *. rewrite Hf in *. eexists.
  split; [reflexivity |]. cbn [snd] in Hu'.
  unfold nomi_unici, ottieni_nomi_componenti in Hu, Hu'.
  cbn [_salva_componenti GC.componenti] in *.
  set (c' := Componente.mk nuovo code sn pref ind pol) in *.
  apply list_find_Some in Hf as (Hi & Hco & _).
  assert (Hlt : (i < length (GC.componenti self))%nat)
    by (eapply lookup_lt_Some; eassumption).
  assert (Hmem : forall x, x ∈ <[i := c']> (GC.componenti self) <->
             x = c' \/ exists j, j <> i /\ GC.componenti self !! j = Some x).
  { intros x. rewrite list_elem_of_lookup. split.
    - intros [j Hj]. apply list_lookup_insert_Some in Hj as [(-> & -> & _) | [? ?]];
        [now left | right; eauto].
    - intros [-> | (j & Hne & Hj)].
      + exists i. now rewrite list_lookup_insert_eq.
      + exists j. now rewrite list_lookup_insert_ne. }
  assert (Huniq : forall j x, GC.componenti self !! j = Some x ->
             Componente.nome x = orig -> j = i).
  { intros j x Hj Hx. apply (NoDup_lookup _ j i orig Hu).
    - rewrite list_lookup_fmap, Hj. cbn. now rewrite Hx.
    - rewrite list_lookup_fmap, Hi. cbn. now rewrite Hco. }
  split; [| split; [| split; [| exact Hu']]].
  - apply (cerca_in_unici _ _ _ Hu'). split; [| reflexivity].
    apply Hmem. now left.
  - intros Hne. destruct (cerca_in _ orig) as [x |] eqn:Hx; [| reflexivity].
    exfalso. apply (cerca_in_unici _ _ _ Hu') in Hx as [Hin Hnx].
    apply Hmem in Hin as [-> | (j & Hj & Hlook)]; [now apply Hne |].
    apply Hj. eapply Huniq; eassumption.
  - intros n Hno Hnn. apply option_eq. intros x.
    rewrite (cerca_in_unici _ _ _ Hu'), (cerca_in_unici _ _ _ Hu), Hmem.
    split.
    + intros [[-> | (j & Hj & Hlook)] Hx]; [now destruct Hnn |].
      split; [eapply list_elem_of_lookup_2; eassumption | assumption].
    + intros [Hin Hx]. split; [| assumption]. right.
      apply list_elem_of_lookup in Hin as [j Hj]. exists j.
      split; [| assumption]. intros ->. rewrite Hi in Hj. congruence.
Qed.

Lemma modifica_componente_rinomina_witness :
  exists self',
    modifica_componente (sempre true) "RELAY" "VALVE" "XYZ789" (Some 4)
                        None false (PInt 3) gc_due = (Ok true, self') /\
    cerca_componente_per_nome self' "VALVE"
      = Some (Componente.mk "VALVE" "XYZ789" (Some 4) None false (PInt 3)) /\
    ("VALVE" <> "RELAY" -> cerca_componente_per_nome self' "RELAY" = None) /\
    (forall n, n <> "RELAY" -> n <> "VALVE" ->
       cerca_componente_per_nome self' n = cerca_componente_per_nome gc_due n) /\
    nomi_unici self'.
Proof.
  apply (modifica_componente_rinomina (sempre true) "RELAY" "VALVE" "XYZ789"
           (Some 4) None false (PInt 3) gc_due).
  - unfold nomi_unici. cbn.
    repeat (apply NoDup_cons; split;
            [rewrite ?elem_of_cons, elem_of_nil; intros H;
             repeat destruct H as [H | H]; (discriminate H || exact H) |]).
    apply NoDup_nil_2.
  - exists componente_relay. reflexivity.
  - right. cbn. rewrite ?elem_of_cons, elem_of_nil. intros H.
    repeat destruct H as [H | H]; (discriminate H || exact H).
Defined.

(** ** The component file *)

Lemma migra_in_json c : migra (in_json c) = c.
Proof. now destruct c. Qed.

Lemma carica_lista_salvata ok (l : list Componente.t) :
  _carica_componenti ok (FileLista (in_json <$> l))
  = (l, FileLista (in_json <$> l)).
Proof.
  unfold _carica_componenti.
  replace (existsb _ (in_json <$> l)) with false.
  - f_equal. rewrite <- list_fmap_compose.
    rewrite <- (list_fmap_id l) at 2. apply list_fmap_ext.
    intros i c _. apply migra_in_json.
  - symmetry. induction l as [| c l IH]; [reflexivity | exact IH].
Qed.

(** A successful operation whose write goes through leaves the list in
    memory in the file. *)
Lemma esegui_file (dc : nat -> bool) (op : Operazione) (self : GC.t) :
  fst (esegui dc op self) = Ok true ->
  dc (GC.scritture self) = true ->
  GC.file_componenti (snd (esegui dc op self))
  = Some (GC.componenti (snd (esegui dc op self))).
Proof.
  intros Hb Hdc. revert Hb.
  destruct op as [n c sn p i pol | o n c sn p i pol | n | n sn];
    cbn [esegui].
  - unfold aggiungi_componente.
    destruct (cerca_componente_per_nome self n); [discriminate |].
    intros _. cbn. now rewrite Hdc.
  - unfold modifica_componente.
    destruct (list_find _ _) as [[j x] |]; [| discriminate].
    intros _. cbn. now rewrite Hdc.
  - unfold elimina_componente.
    destruct (_ <? _)%nat; [| discriminate].
    intros _. cbn. now rewrite Hdc.
  - unfold aggiorna_sn_iniziale.
    destruct (list_find _ _) as [[j x] |]; [| discriminate].
    intros _. cbn. now rewrite Hdc.
Qed.

(** X9. A write is attempted exactly when an operation reports success: a
    refused operation leaves the object as it was, a successful one makes
    one write attempt, and when that write goes through the file holds
    the list in memory. *)
Theorem esegui_salvataggio (dc : nat -> bool) (op : Operazione)
    (self : GC.t) :
  exists (b : bool) (self' : GC.t),
    esegui dc op self = (Ok b, self') /\
    (b = false -> self' = self) /\
    (b = true ->
     GC.scritture self' = S (GC.scritture self) /\
     (dc (GC.scritture self) = true ->
      GC.file_componenti self' = Some (GC.componenti self'))).
Proof.
  destruct op as [n c sn p i pol | o n c sn p i pol | n | n sn];
    cbn [esegui].
  - unfold aggiungi_componente.
    destruct (cerca_componente_per_nome self n).
    + exists false, self. repeat split; discriminate.
    + eexists true, _. split; [reflexivity |].
      split; [discriminate |]. intros _. split; [reflexivity |].
      intros Hdc. cbn. now rewrite Hdc.
  - unfold modifica_componente. destruct (list_find _ _) as [[j x] |].
    + eexists true, _. split; [reflexivity |].
      split; [discriminate |]. intros _. split; [reflexivity |].
      intros Hdc. cbn. now rewrite Hdc.
    + exists false, self. repeat split; discriminate.
  - pose proof (elimina_componente_assente dc n self) as Hno.
    unfold elimina_componente in *.
    destruct (Nat.ltb_spec
                (length (filter (fun c => Componente.nome c <> n)
                                (GC.componenti self)))
                (length (GC.componenti self))) as [Hlt | Hge].
    + eexists true, _. split; [reflexivity |].
      split; [discriminate |]. intros _. split; [reflexivity |].
      intros Hdc. cbn. now rewrite Hdc.
    + eexists false, _. split; [reflexivity |]. split; [| discriminate].
      intros _.
      destruct (cerca_componente_per_nome self n) as [x |] eqn:Hx.
      * exfalso. change (cerca_in (GC.componenti self) n = Some x) in Hx.
        apply cerca_in_Some in Hx as (j & Hf).
        apply list_find_Some in Hf as (Hj & Hnx & _).
        apply list_elem_of_lookup_2 in Hj.
        pose proof (length_filter_lt
                      (fun c => Componente.nome c <> n) _ x Hj
                      ltac:(intros H; now apply H)). lia.
      * specialize (Hno eq_refl). now injection Hno.
  - unfold aggiorna_sn_iniziale. destruct (list_find _ _) as [[j x] |].
    + eexists true, _. split; [reflexivity |].
      split; [discriminate |]. intros _. split; [reflexivity |].
      intros Hdc. cbn. now rewrite Hdc.
    + exists false, self. repeat split; discriminate.
Qed.

(** X10. Loading the component file: without a readable list the registry
    starts empty and nothing is written.  A list is loaded entry by entry
    with its five other fields as they are and the index policy of the
    file, [None] where the key is missing; when no key is missing nothing
    is written, and when one is and the write goes through the file then
    holds every entry with the key present.  After such a load, and after
    a successful operation of the registry whose write went through,
    loading again returns the same list and leaves the file as it is. *)
Theorem _carica_componenti_migrazione (ok : bool) (file : FileComponenti) :
  let politica (c : ComponenteJson.t) : IndexPolicy :=
    match ComponenteJson.inizio_indicizzazione_prefisso c with
    | Some p => p
    | None => PNone
    end in
  (file = FileAssente \/ file = FileIllegibile ->
   _carica_componenti ok file = ([], file)) /\
  (forall l : list ComponenteJson.t,
     fst (_carica_componenti ok (FileLista l))
     = (fun c => Componente.mk (ComponenteJson.nome c)
                   (ComponenteJson.code_12nc c)
                   (ComponenteJson.sn_iniziale c)
                   (ComponenteJson.prefisso_tipo_scheda c)
                   (ComponenteJson.indicizzazione c) (politica c)) <$> l /\
     (Forall (fun c =>
                is_Some (ComponenteJson.inizio_indicizzazione_prefisso c)) l ->
      snd (_carica_componenti ok (FileLista l)) = FileLista l) /\
     (Exists (fun c =>
                ComponenteJson.inizio_indicizzazione_prefisso c = None) l ->
      ok = true ->
      snd (_carica_componenti ok (FileLista l))
      = FileLista
          ((fun c => ComponenteJson.mk (ComponenteJson.nome c)
                       (ComponenteJson.code_12nc c)
                       (ComponenteJson.sn_iniziale c)
                       (ComponenteJson.prefisso_tipo_scheda c)
                       (ComponenteJson.indicizzazione c)
                       (Some (politica c))) <$> l))) /\
  (ok = true ->
   forall ok' : bool,
     _carica_componenti ok' (snd (_carica_componenti ok file))
     = _carica_componenti ok file) /\
  (forall (dc : nat -> bool) (op : Operazione) (self : GC.t),
     fst (esegui dc op self) = Ok true -> dc (GC.scritture self) = true ->
     _carica_componenti ok
       (file_json (GC.file_componenti (snd (esegui dc op self))))
     = (GC.componenti (snd (esegui dc op self)),
        file_json (GC.file_componenti (snd (esegui dc op self))))).
Proof.
  intros politica.
  split; [intros [-> | ->]; reflexivity |].
  split; [| split].
  - intros l. unfold _carica_componenti, _salva_componenti_lista.
    cbn [fst snd]. split; [| split].
    + apply list_fmap_ext. intros i c _. unfold migra, politica.
      now destruct (ComponenteJson.inizio_indicizzazione_prefisso c).
    + intros Hall. replace (existsb _ l) with false; [reflexivity |].
      symmetry. induction Hall as [| c l [p Hp] _ IH]; [reflexivity |].
      cbn [existsb]. now rewrite Hp.
    + intros Hex ->. replace (existsb _ l) with true.
      * f_equal. rewrite <- list_fmap_compose. apply list_fmap_ext.
        intros i c _. unfold politica.
        now destruct c as [n cd sn pr ind [pol |]].
      * symmetry. induction Hex as [c l Hc | c l _ IH]; cbn [existsb].
        -- now rewrite Hc.
        -- rewrite IH. apply orb_true_r.
  - intros -> ok'. destruct file as [| | l]; try reflexivity.
    unfold _carica_componenti at 2 3, _salva_componenti_lista.
    destruct (existsb _ l) eqn:Hex; cbn [snd].
    + apply carica_lista_salvata.
    + unfold _carica_componenti. now rewrite Hex.
  - intros dc op self Hb Hdc.
    rewrite (esegui_file dc op self Hb Hdc).
    cbn [file_json]. apply carica_lista_salvata.
Qed.

(** ** The serials of a run *)

Lemma calcola_sn_calcolato r s :
  ~ senza_codice (GSN.stato (GE.gestore_sn s)) r ->
  calcola_sn r s = (Ok (calcolato (GE.gestore_sn s) r), s).
Proof.
  intros Hno. unfold calcola_sn, calcolato, bind, get, ret, raise,
    senza_codice, numero_incrementale in *. cbn.
  destruct (GSN.stato (GE.gestore_sn s) !! Richiesta.nome r) eqn:Hst;
    [reflexivity |].
  destruct (Py.truthy (Richiesta.code_12nc r)) eqn:Hcode; [reflexivity |].
  exfalso. apply Hno. now split.
Qed.

Lemma for_each_passo_precalcolo_calcolato l acc s :
  Forall (fun r => ~ senza_codice (GSN.stato (GE.gestore_sn s)) r) l ->
  for_each l passo_precalcolo acc s
  = (Ok (acc ++ (calcolato (GE.gestore_sn s) <$> l)), s).
Proof.
  revert acc. induction l as [| r l IH]; intros acc Hall.
  - cbn. now rewrite app_nil_r.
  - inversion Hall as [| ? ? Hr Hl]; subst.
    cbn [for_each]. unfold bind at 1, passo_precalcolo at 1, bind at 1.
    rewrite calcola_sn_calcolato by assumption. unfold ret at 1.
    rewrite IH by assumption. now rewrite fmap_cons, <- app_assoc.
Qed.

Lemma nome_unico (cis : list CompInfo.t) ci ci' :
  NoDup (CompInfo.nome <$> cis) -> ci ∈ cis -> ci' ∈ cis ->
  CompInfo.nome ci = CompInfo.nome ci' -> ci = ci'.
Proof.
  intros Hnd [i Hi]%list_elem_of_lookup [j Hj]%list_elem_of_lookup Heq.
  assert (i = j).
  { apply (NoDup_lookup _ i j (CompInfo.nome ci) Hnd);
      rewrite list_lookup_fmap; [rewrite Hi | rewrite Hj]; cbn; congruence. }
  subst j. congruence.
Qed.

Lemma righe_di_snoc nome righe riga :
  righe_di nome (righe ++ [riga]) =
    righe_di nome righe ++
    (if decide (Riga.descrizione riga = nome) then [riga] else []).
Proof.
  unfold righe_di. rewrite filter_app. reflexivity.
Qed.

Lemma get_ultimo_sn_lookup g d :
  is_Some (GSN.stato g !! d) ->
  numero_incrementale g d None = get_ultimo_sn g d + 1.
Proof. intros _. apply numero_incrementale_auto. Qed.

Lemma elemento_inv_seriali now ds f bp bv bus cis g0 ci p primo s :
  NoDup (CompInfo.nome <$> cis) -> ci ∈ cis -> 0 <= p ->
  inv_seriali now cis g0 primo s ->
  exists primo' s',
    elemento now ds f bp bv bus ci p primo s = (Ok primo', s') /\
    inv_seriali now cis g0 primo' s'.
Proof.
  intros Hnd Hci Hp (righe & Hwb & Hch & Hcomp & Hfuori & Hrighe).
  set (nome := CompInfo.nome ci) in *.
  set (k := length (righe_di nome righe)).
  destruct (Hcomp ci Hci) as [Hzero Hpos]. fold nome k in Hzero, Hpos.
  (* the flag and the counter of this element *)
  assert (Hflag : exists b : bool,
             primo !! nome = Some b /\
             numero_incrementale (GE.gestore_sn s) nome
               (if b then Some (CompInfo.prossimo_sn ci) else None)
             = CompInfo.prossimo_sn ci + Z.of_nat k).
  { destruct (Nat.eq_dec k 0%nat) as [Hk | Hk].
    - destruct (Hzero Hk) as [Hb _]. exists true. split; [assumption |].
      rewrite Hk. cbn. lia.
    - destruct (Hpos Hk) as (Hb & Hult & Hsome). exists false.
      split; [assumption |]. rewrite numero_incrementale_auto, Hult. lia. }
  destruct Hflag as (b & Hb & Hnum).
  eexists _, _. split; [exact (elemento_eq _ _ _ _ _ _ _ _ _ _ b Hp Hb) |].
  cbv zeta. fold nome. rewrite Hnum, Hwb.
  set (riga := Riga.mk _ _ _ _ _ _ _ _ _).
  set (g1 := gsn_dopo _ _ _ _ _ _).
  exists (righe ++ [riga]).
  assert (Hdesc : Riga.descrizione riga = nome) by reflexivity.
  assert (Hstato1 : forall d, GSN.stato g1 !! d =
            if decide (nome = d)
            then Some (Stato.mk (CompInfo.prossimo_sn ci + Z.of_nat k)
                         (isoformat (now (GSN.chiamate (GE.gestore_sn s))))
                         (if b then CompInfo.code_12nc ci else None))
            else GSN.stato (GE.gestore_sn s) !! d).
  { intros d. unfold g1, gsn_dopo. cbn [GSN.stato].
    rewrite lookup_insert, Hnum. now destruct (decide (nome = d)). }
  cbn [GE.workbook GE.gestore_sn fmap option_fmap option_map].
  split; [reflexivity |]. split; [| split; [| split]].
  - unfold g1, gsn_dopo. cbn [GSN.chiamate]. rewrite Hch, length_app.
    cbn [length]. lia.
  - intros ci' Hci'. cbv zeta. rewrite righe_di_snoc, Hdesc, length_app.
    destruct (decide (nome = CompInfo.nome ci')) as [Heq | Hne].
    + assert (ci = ci') as <- by (eapply nome_unico; eauto).
      fold nome k. cbn [length]. split; [lia |]. intros _.
      split; [| split].
      * destruct b; [apply lookup_insert_eq |]. exact Hb.
      * unfold get_ultimo_sn. rewrite Hstato1, decide_True by reflexivity.
        cbn. lia.
      * rewrite Hstato1, decide_True by reflexivity. eauto.
    + cbn [length]. rewrite Nat.add_0_r.
      destruct (Hcomp ci' Hci') as [Hz' Hp'].
      assert (Hprimo : (if b then <[nome := false]> primo else primo)
                         !! CompInfo.nome ci' = primo !! CompInfo.nome ci').
      { destruct b; [now apply lookup_insert_ne | reflexivity]. }
      unfold get_ultimo_sn in *.
      rewrite Hprimo, Hstato1, decide_False by assumption.
      split; assumption.
  - intros d Hd. rewrite Hstato1.
    rewrite decide_False; [now apply Hfuori |].
    intros <-. apply Hd. unfold nome. now apply list_elem_of_fmap_2.
  - intros i riga' Hi.
    destruct (lookup_app_Some righe [riga] i riga') as [Hcases _].
    destruct (Hcases Hi) as [Hold | [Hlen Hnew]].
    + destruct (Hrighe i riga' Hold) as (ci' & ? & ? & ? & Hsn).
      exists ci'. repeat (split; [assumption |]).
      rewrite Hsn. do 3 f_equal.
      apply lookup_lt_Some in Hold. now rewrite take_app_le by lia.
    + assert (i = length righe).
      { apply lookup_lt_Some in Hnew. cbn in Hnew. lia. }
      subst i. rewrite Nat.sub_diag in Hnew. injection Hnew as <-.
      exists ci. split; [assumption |]. split; [reflexivity |].
      split; [reflexivity |].
      rewrite take_app_le, firstn_all by lia. cbn [Riga.sn riga].
      now rewrite Hch.
Qed.

Lemma primo_utilizzo_iniziale_true cis ci :
  ci ∈ cis -> primo_utilizzo_iniziale cis !! CompInfo.nome ci = Some true.
Proof.
  unfold primo_utilizzo_iniziale.
  assert (Hgen : forall (acc : gmap string bool) nome,
             acc !! nome = Some true \/ nome ∈ (CompInfo.nome <$> cis) ->
             (forall n b, acc !! n = Some b -> b = true) ->
             foldl (fun d ci => <[CompInfo.nome ci := true]> d) acc cis
               !! nome = Some true).
  { induction cis as [| x cis IH]; intros acc nome Hn Hall; cbn [foldl].
    - destruct Hn as [Hn | Hn]; [assumption | now apply elem_of_nil in Hn].
    - apply IH.
      + destruct (decide (CompInfo.nome x = nome)) as [<- | Hne].
        * left. apply lookup_insert_eq.
        * rewrite lookup_insert_ne by assumption.
          destruct Hn as [Hn | Hn]; [now left |].
          rewrite fmap_cons in Hn.
          apply elem_of_cons in Hn as [-> | Hn]; [contradiction | now right].
      + intros n b. rewrite lookup_insert.
        destruct (decide _); [congruence | apply Hall]. }
  intros Hci. apply Hgen.
  - right. now apply list_elem_of_fmap_2.
  - intros n b Hn. now rewrite lookup_empty in Hn.
Qed.

Lemma inv_seriali_iniziale now cis s :
  GE.workbook s = Some [] ->
  inv_seriali now cis (GE.gestore_sn s) (primo_utilizzo_iniziale cis) s.
Proof.
  intros Hwb. exists []. split; [assumption |].
  split; [cbn; lia |]. split; [| split].
  - intros ci Hci. cbn. split; [| congruence]. intros _.
    split; [now apply primo_utilizzo_iniziale_true | reflexivity].
  - reflexivity.
  - intros i riga Hi. now rewrite lookup_nil in Hi.
Qed.

Lemma elemento_inv_codice now ds f bp bv bus cis g0 ci p primo s :
  NoDup (CompInfo.nome <$> cis) -> ci ∈ cis -> 0 <= p ->
  inv_seriali now cis g0 primo s /\ inv_codice cis s ->
  exists primo' s',
    elemento now ds f bp bv bus ci p primo s = (Ok primo', s') /\
    (inv_seriali now cis g0 primo' s' /\ inv_codice cis s').
Proof.
  intros Hnd Hci Hp [Hser (righe & Hwb & Hcod)].
  destruct (elemento_inv_seriali now ds f bp bv bus cis g0 ci p primo s
              Hnd Hci Hp Hser) as (primo' & s' & Hrun & Hser').
  exists primo', s'. split; [exact Hrun |]. split; [exact Hser' |].
  destruct Hser as (righe0 & Hwb0 & _ & Hcomp & _).
  rewrite Hwb in Hwb0. injection Hwb0 as <-.
  set (nome := CompInfo.nome ci) in *.
  set (k := length (righe_di nome righe)).
  destruct (Hcomp ci Hci) as [Hzero Hpos]. fold nome k in Hzero, Hpos.
  assert (Hflag : exists b : bool,
             primo !! nome = Some b /\ (b = true <-> k = 0%nat)).
  { destruct (Nat.eq_dec k 0%nat) as [Hk | Hk].
    - destruct (Hzero Hk) as [Hb _]. exists true. now split.
    - destruct (Hpos Hk) as (Hb & _). exists false.
      split; [assumption |]. split; [discriminate | contradiction]. }
  destruct Hflag as (b & Hb & Hbk).
  rewrite (elemento_eq _ _ _ _ _ _ _ _ _ _ b Hp Hb) in Hrun.
  cbv zeta in Hrun. fold nome in Hrun. injection Hrun as _ <-.
  rewrite Hwb. cbn [fmap option_fmap option_map].
  set (riga := Riga.mk _ _ _ _ _ _ _ _ _).
  exists (righe ++ [riga]). cbn [GE.workbook GE.gestore_sn].
  split; [reflexivity |].
  intros ci' Hci'. cbv zeta. rewrite righe_di_snoc, length_app.
  change (Riga.descrizione riga) with nome.
  unfold gsn_dopo. cbn [GSN.stato]. rewrite lookup_insert.
  destruct (decide (nome = CompInfo.nome ci')) as [Heq | Hne].
  - assert (ci = ci') as <- by (eapply nome_unico; eauto).
    fold nome k. cbn [length fmap option_fmap option_map Stato.code_12nc].
    split; intros Hk.
    + assert (b = true) as -> by (apply Hbk; lia). reflexivity.
    + destruct b; [| reflexivity].
      assert (k = 0%nat) by now apply Hbk. lia.
  - cbn [length]. rewrite Nat.add_0_r. apply (Hcod ci' Hci').
Qed.

Lemma ciclo_principale_invarianti now ds f bp bv n b0 cis s :
  NoDup (CompInfo.nome <$> cis) ->
  GE.workbook s = Some [] ->
  exists primo' s',
    ciclo_principale now ds f bp bv n b0 cis s = (Ok primo', s') /\
    inv_seriali now cis (GE.gestore_sn s) primo' s' /\
    inv_codice cis s'.
Proof.
  intros Hnd Hwb. unfold ciclo_principale.
  set (Inv := fun (primo : gmap string bool) (s' : GE.t) =>
                inv_seriali now cis (GE.gestore_sn s) primo s' /\
                inv_codice cis s').
  apply (for_each_inv Inv).
  - intros bus_idx primo1 s1 _ H1. unfold ciclo_bus.
    apply (for_each_inv Inv); [| assumption].
    intros ci primo2 s2 Hci H2. unfold ciclo_componente.
    apply (for_each_inv Inv); [| assumption].
    intros p primo3 s3 Hp H3. apply range_nonneg in Hp.
    now apply elemento_inv_codice.
  - split; [now apply inv_seriali_iniziale |].
    exists []. split; [assumption |]. intros ci _. cbn. split; lia.
Qed.

(** The descriptions of the rows, bus after bus. *)
Lemma ciclo_principale_descrizioni now ds f bp bv n b0 cis s righe :
  GE.workbook s = Some righe ->
  exists primo' s' nuove,
    ciclo_principale now ds f bp bv n b0 cis s = (Ok primo', s') /\
    GE.workbook s' = Some (righe ++ nuove) /\
    Riga.descrizione <$> nuove =
      (_ ← Py.range n; ci ← cis;
       _ ← Py.range (CompInfo.quantita ci); [CompInfo.nome ci]).
Proof.
  intros Hwb. unfold ciclo_principale.
  destruct (for_each_righe Riga.descrizione (flag_presenti cis) (Py.range n)
              (ciclo_bus now ds f bp bv b0 cis)
              (fun _ => ci ← cis;
                        _ ← Py.range (CompInfo.quantita ci);
                        [CompInfo.nome ci]))
    with (acc := primo_utilizzo_iniziale cis) (s := s) (righe := righe)
    as (primo' & s' & nuove & Hrun & _ & Hwb' & Hcol);
    [| apply primo_utilizzo_iniziale_presenti | assumption
     | now exists primo', s', nuove].
  intros bus_idx acc1 s1 righe1 _. unfold ciclo_bus.
  apply for_each_righe.
  intros ci acc2 s2 righe2 Hci. unfold ciclo_componente.
  apply for_each_righe.
  intros p acc3 s3 righe3 Hp Hinv Hwb3. apply range_nonneg in Hp.
  destruct (proj1 (Forall_forall _ _) Hinv ci Hci) as [b Hb].
  eexists _, _, _. split; [apply (elemento_eq _ _ _ _ _ _ _ _ _ _ b Hp Hb) |].
  split; [destruct b; [now apply flag_presenti_insert | assumption] |].
  cbn [GE.workbook]. rewrite Hwb3. split; reflexivity.
Qed.

Lemma length_bind_singleton {A B} (l : list A) (b : B) :
  length (_ ← l; [b]) = length l.
Proof. induction l as [| x l IH]; [reflexivity |]. cbn. now rewrite IH. Qed.

Lemma filter_bind_costante {A} (P : string -> Prop)
    `{forall x, Decision (P x)} (l : list A) (d : string) :
  length (filter P (_ ← l; [d])) = if decide (P d) then length l else 0%nat.
Proof.
  induction l as [| x l IH]; [now destruct (decide _) |].
  rewrite bind_cons, filter_app, length_app, IH.
  rewrite filter_cons, filter_nil. now destruct (decide (P d)).
Qed.

Lemma conta_nome (cis : list CompInfo.t) ci :
  NoDup (CompInfo.nome <$> cis) -> ci ∈ cis ->
  length (filter (fun d => d = CompInfo.nome ci)
            (ci' ← cis; _ ← Py.range (CompInfo.quantita ci');
             [CompInfo.nome ci']))
  = Z.to_nat (CompInfo.quantita ci).
Proof.
  induction cis as [| x cis IH]; intros Hnd Hci;
    [now apply elem_of_nil in Hci |].
  rewrite fmap_cons in Hnd. apply NoDup_cons in Hnd as [Hx Hnd].
  rewrite bind_cons, filter_app, length_app, filter_bind_costante.
  apply elem_of_cons in Hci as [-> | Hci].
  - rewrite decide_True by reflexivity.
    assert (Hzero : length (filter (fun d => d = CompInfo.nome x)
                      (ci' ← cis; _ ← Py.range (CompInfo.quantita ci');
                       [CompInfo.nome ci'])) = 0%nat).
    { clear IH Hnd. induction cis as [| y cis IH]; [reflexivity |].
      rewrite fmap_cons in Hx. apply not_elem_of_cons in Hx as [Hxy Hx].
      rewrite bind_cons, filter_app, length_app, filter_bind_costante.
      rewrite decide_False by congruence. now rewrite IH. }
    rewrite Hzero. unfold Py.range. rewrite length_fmap, length_seq. lia.
  - rewrite decide_False, IH by
      (try assumption; intros Heq; apply Hx; rewrite Heq;
       now apply list_elem_of_fmap_2).
    reflexivity.
Qed.

Lemma conta_bus {A} (P : string -> Prop) `{forall x, Decision (P x)}
    (l : list A) (X : list string) :
  length (filter P (_ ← l; X)) = (length l * length (filter P X))%nat.
Proof.
  induction l as [| x l IH]; [reflexivity |].
  rewrite bind_cons, filter_app, length_app, IH. cbn [length]. lia.
Qed.

Lemma length_righe_di nome (righe : list Riga.t) :
  length (righe_di nome righe)
  = length (filter (fun d => d = nome) (Riga.descrizione <$> righe)).
Proof.
  unfold righe_di. induction righe as [| x l IH]; [reflexivity |].
  rewrite fmap_cons, !filter_cons.
  destruct (decide (Riga.descrizione x = nome)); cbn [length]; now rewrite IH.
Qed.

(** ** The registry after a run *)

Lemma sincronizza_componente_altri dc stato r gc n :
  Richiesta.nome r <> n ->
  cerca_in (GC.componenti (snd (sincronizza_componente dc stato r gc))) n
  = cerca_in (GC.componenti gc) n.
Proof.
  intros Hne.
  destruct (stato !! Richiesta.nome r) as [st |] eqn:Hst.
  - destruct (list_find (fun comp => Componente.nome comp = Richiesta.nome r)
                        (GC.componenti gc)) as [[i c] |] eqn:Hfind.
    + rewrite (sincronizza_componente_trovato _ _ _ _ _ _ _ Hst Hfind).
      cbn [snd _salva_componenti GC.componenti].
      pose proof Hfind as (_ & Hn & _)%list_find_Some.
      set (c' := Componente.mk _ _ _ _ _ _).
      rewrite (cerca_in_insert _ _ _ c' (Richiesta.nome r) n Hfind Hn).
      now rewrite decide_False by congruence.
    + rewrite sincronizza_componente_assente; [reflexivity |].
      right. unfold cerca_componente_per_nome. now rewrite Hfind.
  - rewrite sincronizza_componente_assente; [reflexivity | now left].
Qed.

Lemma for_each_sincronizza_altri dc stato l gc n :
  Forall (fun r => Richiesta.nome r <> n) l ->
  cerca_in (GC.componenti
              (snd (for_each l (fun componente _ =>
                                  sincronizza_componente dc stato componente)
                             tt gc))) n
  = cerca_in (GC.componenti gc) n.
Proof.
  revert gc. induction l as [| r l IH]; intros gc Hall; [reflexivity |].
  inversion Hall as [| ? ? Hr Hl]; subst.
  destruct (sincronizza_componente_campi dc stato r gc) as (gc1 & H1 & _).
  cbn [for_each]. unfold bind at 1. rewrite H1.
  rewrite IH by assumption.
  pose proof (sincronizza_componente_altri dc stato r gc n Hr) as Hs.
  now rewrite H1 in Hs.
Qed.

(** With distinct names in the run, the entry of a component with a serial
    state ends with the new resume point and the policy of the run. *)
Lemma for_each_sincronizza_ripresa dc stato l gc r st c :
  NoDup (Richiesta.nome <$> l) -> r ∈ l ->
  stato !! Richiesta.nome r = Some st ->
  cerca_in (GC.componenti gc) (Richiesta.nome r) = Some c ->
  cerca_in (GC.componenti
              (snd (for_each l (fun componente _ =>
                                  sincronizza_componente dc stato componente)
                             tt gc))) (Richiesta.nome r)
  = Some (Componente.mk (Componente.nome c) (Componente.code_12nc c)
            (Some (Stato.ultimo_sn st + 1))
            (Componente.prefisso_tipo_scheda c)
            (Componente.indicizzazione c)
            (Richiesta.inizio_indicizzazione_prefisso r)).
Proof.
  revert gc. induction l as [| r0 l IH]; intros gc Hnd Hr Hst Hc;
    [now apply elem_of_nil in Hr |].
  rewrite fmap_cons in Hnd. apply NoDup_cons in Hnd as [Hr0 Hnd].
  destruct (sincronizza_componente_campi dc stato r0 gc) as (gc1 & H1 & _).
  cbn [for_each]. unfold bind at 1. rewrite H1.
  apply elem_of_cons in Hr as [-> | Hr].
  - rewrite for_each_sincronizza_altri.
    + apply cerca_in_Some in Hc as (i & Hfind).
      rewrite (sincronizza_componente_trovato _ _ _ _ _ _ _ Hst Hfind) in H1.
      injection H1 as <-. cbn [_salva_componenti GC.componenti].
      pose proof Hfind as (_ & Hn & _)%list_find_Some.
      set (c' := Componente.mk _ _ _ _ _ _).
      rewrite (cerca_in_insert _ _ _ c' _ (Richiesta.nome r0) Hfind Hn).
      now rewrite decide_True.
    + apply Forall_forall. intros r' Hr' Heq. apply Hr0. rewrite <- Heq.
      now apply list_elem_of_fmap_2.
  - apply IH; try assumption.
    pose proof (sincronizza_componente_altri dc stato r0 gc
                  (Richiesta.nome r)) as Hs.
    rewrite H1 in Hs. cbn [snd] in Hs. rewrite Hs; [assumption |].
    intros Heq. apply Hr0. rewrite Heq. now apply list_elem_of_fmap_2.
Qed.

(** ** A whole run *)

(** A run that passes its checks, stage by stage: the sheet, the allocator
    and the registry it leaves. *)
Lemma crea_documento_con_componenti_fasi
    now ds dc bp bv n componenti b0 f self :
  bp <> "" -> bv <> "" -> 0 < n -> componenti <> [] ->
  Forall (fun r => ~ senza_codice (GSN.stato (GE.gestore_sn self)) r)
         componenti ->
  NoDup (Richiesta.nome <$> componenti) ->
  let g0 := GE.gestore_sn self in
  let cis := calcolato g0 <$> componenti in
  exists righe primo' s2 self',
    crea_documento_con_componenti now ds dc bp bv n componenti b0 f self
      = (Ok righe, self') /\
    GE.workbook s2 = Some righe /\
    inv_seriali now cis g0 primo' s2 /\
    Riga.descrizione <$> righe =
      (_ ← Py.range n; ci ← cis;
       _ ← Py.range (CompInfo.quantita ci); [CompInfo.nome ci]) /\
    GE.gestione_componenti s2 = GE.gestione_componenti self /\
    sincronizza dc componenti s2 = (Ok tt, self') /\
    GE.gestore_sn self' = GE.gestore_sn s2 /\
    inv_codice cis s2.
Proof.
  intros Hbp Hbv Hn Hne Hcod Hnd g0 cis.
  unfold crea_documento_con_componenti.
  destruct (String.eqb_spec bp "") as [? | _]; [contradiction |].
  destruct (String.eqb_spec bv "") as [? | _]; [contradiction |].
  cbn [orb]. destruct (Z.leb_spec n 0) as [? | _]; [lia |].
  destruct (Nat.eqb_spec (length componenti) 0) as [Hlen | _];
    [now apply nil_length_inv in Hlen |].
  set (s1 := GE.mk (Some []) (GE.gestore_sn self)
                   (GE.gestione_componenti self)).
  assert (Hnd' : NoDup (CompInfo.nome <$> cis)).
  { unfold cis. rewrite <- list_fmap_compose. exact Hnd. }
  destruct (ciclo_principale_invarianti now ds f bp bv n b0 cis s1 Hnd'
              eq_refl) as (primo' & s2 & Hrun & Hinv & Hinvc).
  destruct (ciclo_principale_descrizioni now ds f bp bv n b0 cis s1 []
              eq_refl) as (primo'' & s2' & nuove & Hrun' & Hwb2 & Hdesc).
  rewrite Hrun in Hrun'. injection Hrun' as <- <-.
  destruct (sincronizza_spec dc componenti s2)
    as (s3 & Hsync & Hwb3 & Hg3 & _).
  exists nuove, primo', s2, s3.
  split; [| split; [exact Hwb2 | split; [exact Hinv | split; [exact Hdesc |]]]].
  - unfold bind at 1, modify at 1. fold s1.
    unfold bind at 1, precalcolo.
    rewrite (for_each_passo_precalcolo_calcolato componenti [] s1 Hcod).
    cbn [app]. change (calcolato (GE.gestore_sn s1) <$> componenti) with cis.
    unfold bind at 1. rewrite Hrun.
    unfold bind at 1. rewrite Hsync.
    unfold bind, get, ret. now rewrite Hwb3, Hwb2.
  - split; [| split; [exact Hsync | split; [exact Hg3 | exact Hinvc]]].
    pose proof (ciclo_principale_registro now ds f bp bv n b0 cis s1) as Hr.
    rewrite Hrun in Hr. cbn [snd] in Hr. unfold registro_conservato in Hr.
    clear - Hr Hrun Hnd'.
    (* the main loop does not touch the registry at all *)
    assert (Hframe : GE.gestione_componenti
                       (snd (ciclo_principale now ds f bp bv n b0 cis s1))
                     = GE.gestione_componenti s1).
    { unfold ciclo_principale.
      apply (for_each_frame
               (fun a b => GE.gestione_componenti b = GE.gestione_componenti a));
        [reflexivity | intros; congruence |].
      intros bus_idx acc sa. unfold ciclo_bus.
      apply (for_each_frame
               (fun a b => GE.gestione_componenti b = GE.gestione_componenti a));
        [reflexivity | intros; congruence |].
      intros ci acc2 sb. unfold ciclo_componente.
      apply (for_each_frame
               (fun a b => GE.gestione_componenti b = GE.gestione_componenti a));
        [reflexivity | intros; congruence |].
      intros p acc3 sc. apply elemento_registro. }
    now rewrite Hrun in Hframe.
Qed.

Lemma length_bind_somma {A B} (l : list A) (f : A -> list B) (m : A -> nat) :
  (forall x, length (f x) = m x) -> length (l ≫= f) = sum_list_with m l.
Proof.
  intros Hf. induction l as [| x l IH]; [reflexivity |].
  rewrite bind_cons, length_app, Hf, IH. reflexivity.
Qed.

Lemma sum_list_with_costante {A} (l : list A) (c : nat) :
  sum_list_with (fun _ => c) l = (length l * c)%nat.
Proof. induction l as [| x l IH]; [reflexivity |]. cbn. rewrite IH. lia. Qed.

Lemma length_range n : length (Py.range n) = Z.to_nat n.
Proof. unfold Py.range. now rewrite length_fmap, length_seq. Qed.

Lemma length_colonne_attese n b0 (componenti : list Richiesta.t) :
  length (colonne_attese n b0 componenti) =
    (Z.to_nat n *
     sum_list_with (fun r => Z.to_nat (default 1%Z (Richiesta.quantita r)))
                   componenti)%nat.
Proof.
  unfold colonne_attese.
  rewrite (length_bind_somma _ _
             (fun _ => sum_list_with
                         (fun r => Z.to_nat (default 1%Z (Richiesta.quantita r)))
                         componenti)).
  - now rewrite sum_list_with_costante, length_range.
  - intros bus. apply length_bind_somma. intros r.
    rewrite (length_bind_somma _ _ (fun _ => 1%nat)) by reflexivity.
    rewrite sum_list_with_costante, length_range. lia.
Qed.

(** X11. A run that fails one of the input checks (a delivery note
    missing, no bus, no component, a component with neither a serial state
    nor a part code) raises [ValueError] and leaves the allocator and the
    registry as before the call; a run that returns has passed every
    check, and its sheet has one row per bus and requested element. *)
Theorem crea_documento_con_componenti_esito
    (now : nat -> datetime) (disco_stato disco_componenti : nat -> bool)
    (bolla_produzione bolla_vendita : string) (numero_bus : Z)
    (componenti : list Richiesta.t) (bus_iniziale : Z) (fornitore : string)
    (self : GE.t) :
  let valido :=
    bolla_produzione <> "" /\ bolla_vendita <> "" /\ 0 < numero_bus /\
    componenti <> [] /\
    Forall (fun r => ~ senza_codice (GSN.stato (GE.gestore_sn self)) r)
           componenti in
  let r := crea_documento_con_componenti now disco_stato disco_componenti
             bolla_produzione bolla_vendita numero_bus componenti
             bus_iniziale fornitore self in
  (~ valido ->
   exists msg self',
     r = (Raise (ValueError msg), self') /\
     GE.gestore_sn self' = GE.gestore_sn self /\
     GE.gestione_componenti self' = GE.gestione_componenti self) /\
  (forall righe self',
     r = (Ok righe, self') ->
     valido /\
     length righe =
       (Z.to_nat numero_bus *
        sum_list_with (fun c => Z.to_nat (default 1%Z (Richiesta.quantita c)))
                      componenti)%nat).
Proof.
  cbv zeta. split.
  - intros Hno. unfold crea_documento_con_componenti.
    destruct (String.eqb_spec bolla_produzione "") as [Hbp | Hbp];
      [eexists _, _; cbn; repeat split |].
    destruct (String.eqb_spec bolla_vendita "") as [Hbv | Hbv];
      [eexists _, _; cbn; repeat split |].
    cbn [orb]. destruct (Z.leb_spec numero_bus 0) as [Hn | Hn];
      [eexists _, _; repeat split |].
    destruct (Nat.eqb_spec (length componenti) 0) as [Hlen | Hlen];
      [eexists _, _; repeat split |].
    destruct (senza_codice_tutti_o_uno (GSN.stato (GE.gestore_sn self))
                componenti) as [Hall | Hex].
    + exfalso. apply Hno. repeat split; try assumption.
      intros ->. now apply Hlen.
    + set (s1 := GE.mk (Some []) (GE.gestore_sn self)
                       (GE.gestione_componenti self)).
      destruct (for_each_passo_precalcolo_fallisce componenti [] s1 Hex)
        as (c & _ & _ & Hrun).
      eexists _, s1. split; [| split; reflexivity].
      unfold bind at 1, modify at 1. fold s1.
      unfold bind at 1, precalcolo. now rewrite Hrun.
  - intros righe self' Hrun.
    pose proof (crea_documento_con_componenti_controlli _ _ _ _ _ _ _ _ _ _
                  _ _ Hrun) as Hval.
    split; [exact Hval |].
    destruct Hval as (Hbp & Hbv & Hn & Hne & Hcod).
    destruct (crea_documento_con_componenti_colonne now disco_stato
                disco_componenti bolla_produzione bolla_vendita numero_bus
                componenti bus_iniziale fornitore self Hbp Hbv Hn Hne Hcod)
      as (righe1 & self1 & Hrun1 & Hcol).
    rewrite Hrun in Hrun1. injection Hrun1 as <- <-.
    rewrite <- length_colonne_attese with (b0 := bus_iniziale), <- Hcol.
    now rewrite length_fmap.
Qed.

(** X12. In a run with distinct component names that returns its sheet,
    every row carries the serial of its component's first counter (the
    override, else the last serial plus one, else 0) plus the number of
    earlier rows of that component, formatted at the time of its own
    allocation, and the part code resolved for the component: the serials
    of a component are consecutive through the buses, and only the first
    one can come from an override. *)
Theorem crea_documento_con_componenti_seriali
    (now : nat -> datetime) (disco_stato disco_componenti : nat -> bool)
    (bolla_produzione bolla_vendita : string) (numero_bus : Z)
    (componenti : list Richiesta.t) (bus_iniziale : Z) (fornitore : string)
    (self : GE.t)
    (Hnd : NoDup (Richiesta.nome <$> componenti))
    (righe : list Riga.t) (self' : GE.t)
    (Hrun : crea_documento_con_componenti now disco_stato disco_componenti
              bolla_produzione bolla_vendita numero_bus componenti
              bus_iniziale fornitore self = (Ok righe, self')) :
  let g0 := GE.gestore_sn self in
  forall (i : nat) (riga : Riga.t),
    righe !! i = Some riga ->
    exists r,
      r ∈ componenti /\
      Riga.descrizione riga = Richiesta.nome r /\
      Riga.code_12nc riga = CompInfo.code_12nc (calcolato g0 r) /\
      Riga.sn riga =
        serial_formattato (now (GSN.chiamate g0 + i)%nat)
          (numero_incrementale g0 (Richiesta.nome r)
                               (Richiesta.sn_iniziale r)
           + Z.of_nat (length (righe_di (Richiesta.nome r)
                                        (take i righe)))).
Proof.
  intros g0.
  destruct (crea_documento_con_componenti_controlli _ _ _ _ _ _ _ _ _ _ _ _
              Hrun) as (Hbp & Hbv & Hn & Hne & Hcod).
  destruct (crea_documento_con_componenti_fasi now disco_stato
              disco_componenti bolla_produzione bolla_vendita numero_bus
              componenti bus_iniziale fornitore self Hbp Hbv Hn Hne Hcod Hnd)
    as (righe1 & primo' & s2 & self1 & Hrun1 & Hwb &
        (righe' & Hwb' & _ & _ & _ & Hrighe) & _).
  rewrite Hrun in Hrun1. injection Hrun1 as <- <-.
  rewrite Hwb in Hwb'. injection Hwb' as <-.
  intros i riga Hi.
  destruct (Hrighe i riga Hi) as (ci & Hci & Hd & Hc & Hsn).
  apply list_elem_of_fmap in Hci as (r & -> & Hr).
  exists r. split; [assumption |]. split; [exact Hd |].
  split; [exact Hc | exact Hsn].
Qed.

Lemma crea_documento_con_componenti_seriali_witness :
  let g0 := GE.gestore_sn ge_iniziale in
  exists (righe : list Riga.t) (self' : GE.t),
    crea_documento_con_componenti (sempre giugno_2025) (sempre true) (sempre true)
      "BP1" "BV1" 2 [richiesta_sensor; richiesta_relay] 5
      "TECHRAIL" ge_iniziale = (Ok righe, self') /\
    forall (i : nat) (riga : Riga.t),
      righe !! i = Some riga ->
      exists r,
        r ∈ [richiesta_sensor; richiesta_relay] /\
        Riga.descrizione riga = Richiesta.nome r /\
        Riga.code_12nc riga = CompInfo.code_12nc (calcolato g0 r) /\
        Riga.sn riga =
          serial_formattato ((sempre giugno_2025) (GSN.chiamate g0 + i)%nat)
            (numero_incrementale g0 (Richiesta.nome r)
                                 (Richiesta.sn_iniziale r)
             + Z.of_nat (length (righe_di (Richiesta.nome r)
                                          (take i righe)))).
Proof.
  intros g0. eexists _, _. split; [vm_compute; reflexivity |].
  eapply (crea_documento_con_componenti_seriali
            (sempre giugno_2025) (sempre true) (sempre true)
            "BP1" "BV1" 2 [richiesta_sensor; richiesta_relay] 5 "TECHRAIL"
            ge_iniziale).
  - cbn.
    repeat (apply NoDup_cons; split;
            [rewrite ?elem_of_cons, elem_of_nil; intros H;
             repeat destruct H as [H | H]; (discriminate H || exact H) |]).
    apply NoDup_nil_2.
  - vm_compute. reflexivity.
Defined.

(** X13. After a run with distinct component names that has returned, the
    allocator holds, for a component with [numero_bus * quantita]
    allocations, its first counter plus that number minus one (and its old
    state when nothing was allocated); descriptions outside the run are
    untouched; and the registry entry of a component that has a serial
    state gets that last serial plus one as resume point and the index
    policy given for the run, even an absent one, with its other fields
    kept. *)
Theorem crea_documento_con_componenti_stato_finale
    (now : nat -> datetime) (disco_stato disco_componenti : nat -> bool)
    (bolla_produzione bolla_vendita : string) (numero_bus : Z)
    (componenti : list Richiesta.t) (bus_iniziale : Z) (fornitore : string)
    (self : GE.t)
    (Hnd : NoDup (Richiesta.nome <$> componenti))
    (righe : list Riga.t) (self' : GE.t)
    (Hrun : crea_documento_con_componenti now disco_stato disco_componenti
              bolla_produzione bolla_vendita numero_bus componenti
              bus_iniziale fornitore self = (Ok righe, self')) :
  let g0 := GE.gestore_sn self in
  (forall d, d ∉ (Richiesta.nome <$> componenti) ->
     GSN.stato (GE.gestore_sn self') !! d = GSN.stato g0 !! d) /\
  forall r, r ∈ componenti ->
    let k := (Z.to_nat numero_bus
              * Z.to_nat (default 1%Z (Richiesta.quantita r)))%nat in
    (k = 0%nat ->
     GSN.stato (GE.gestore_sn self') !! Richiesta.nome r
     = GSN.stato g0 !! Richiesta.nome r) /\
    (k <> 0%nat ->
     get_ultimo_sn (GE.gestore_sn self') (Richiesta.nome r) =
       numero_incrementale g0 (Richiesta.nome r) (Richiesta.sn_iniziale r)
       + Z.of_nat k - 1) /\
    (forall gc c,
       GE.gestione_componenti self = Some gc ->
       cerca_componente_per_nome gc (Richiesta.nome r) = Some c ->
       is_Some (GSN.stato (GE.gestore_sn self') !! Richiesta.nome r) ->
       exists gc',
         GE.gestione_componenti self' = Some gc' /\
         cerca_componente_per_nome gc' (Richiesta.nome r) =
           Some (Componente.mk (Componente.nome c) (Componente.code_12nc c)
                   (Some (get_ultimo_sn (GE.gestore_sn self')
                                        (Richiesta.nome r) + 1))
                   (Componente.prefisso_tipo_scheda c)
                   (Componente.indicizzazione c)
                   (Richiesta.inizio_indicizzazione_prefisso r))).
Proof.
  intros g0.
  destruct (crea_documento_con_componenti_controlli _ _ _ _ _ _ _ _ _ _ _ _
              Hrun) as (Hbp & Hbv & Hn & Hne & Hcod).
  destruct (crea_documento_con_componenti_fasi now disco_stato
              disco_componenti bolla_produzione bolla_vendita numero_bus
              componenti bus_iniziale fornitore self Hbp Hbv Hn Hne Hcod Hnd)
    as (righe1 & primo' & s2 & self1 & Hrun1 & Hwb &
        (righe' & Hwb' & _ & Hcomp & Hfuori & _) & Hdesc & Hreg & Hsync & Hg & _).
  rewrite Hrun in Hrun1. injection Hrun1 as <- <-.
  fold g0 in Hcomp, Hfuori, Hdesc.
  rewrite Hwb in Hwb'. injection Hwb' as <-.
  assert (Hnd' : NoDup (CompInfo.nome <$> (calcolato g0 <$> componenti))).
  { rewrite <- list_fmap_compose. exact Hnd. }
  rewrite Hg. split.
  - intros d Hd. apply Hfuori. now rewrite <- list_fmap_compose.
  - intros r Hr k.
    assert (Hci : calcolato g0 r ∈ calcolato g0 <$> componenti)
      by now apply list_elem_of_fmap_2.
    assert (Hk : length (righe_di (Richiesta.nome r) righe) = k).
    { pose proof (conta_nome _ (calcolato g0 r) Hnd' Hci) as Hcount.
      change (CompInfo.nome (calcolato g0 r)) with (Richiesta.nome r)
        in Hcount.
      rewrite length_righe_di, Hdesc, conta_bus, length_range, Hcount.
      reflexivity. }
    destruct (Hcomp _ Hci) as [Hzero Hpos].
    cbn [calcolato CompInfo.nome CompInfo.prossimo_sn] in Hzero, Hpos.
    rewrite Hk in Hzero, Hpos.
    split; [intros H0; now apply Hzero |].
    split; [intros H0; now apply Hpos |].
    intros gc c Hgc Hc [st Hst].
    unfold sincronizza in Hsync. rewrite Hreg, Hgc in Hsync.
    destruct (for_each_sincronizza_componente disco_componenti
                (GSN.stato (GE.gestore_sn s2)) componenti gc)
      as (gc' & Hloop & _).
    pose proof (for_each_sincronizza_ripresa disco_componenti
                  (GSN.stato (GE.gestore_sn s2)) componenti gc r st c
                  Hnd Hr Hst Hc) as Hrip.
    rewrite Hloop in Hsync, Hrip. cbn [snd] in Hrip.
    injection Hsync as <-. exists gc'. split; [reflexivity |].
    unfold get_ultimo_sn. rewrite Hst. exact Hrip.
Qed.

Lemma crea_documento_con_componenti_stato_finale_witness :
  let g0 := GE.gestore_sn ge_iniziale in
  exists (righe : list Riga.t) (self' : GE.t),
    crea_documento_con_componenti (sempre giugno_2025) (sempre true) (sempre true)
      "BP1" "BV1" 2 [richiesta_sensor; richiesta_relay] 5
      "TECHRAIL" ge_iniziale = (Ok righe, self') /\
    (forall d, d ∉ (Richiesta.nome <$> [richiesta_sensor; richiesta_relay]) ->
       GSN.stato (GE.gestore_sn self') !! d = GSN.stato g0 !! d) /\
    forall r, r ∈ [richiesta_sensor; richiesta_relay] ->
      let k := (Z.to_nat 2
                * Z.to_nat (default 1%Z (Richiesta.quantita r)))%nat in
      (k = 0%nat ->
       GSN.stato (GE.gestore_sn self') !! Richiesta.nome r
       = GSN.stato g0 !! Richiesta.nome r) /\
      (k <> 0%nat ->
       get_ultimo_sn (GE.gestore_sn self') (Richiesta.nome r) =
         numero_incrementale g0 (Richiesta.nome r) (Richiesta.sn_iniziale r)
         + Z.of_nat k - 1) /\
      (forall gc c,
         GE.gestione_componenti ge_iniziale = Some gc ->
         cerca_componente_per_nome gc (Richiesta.nome r) = Some c ->
         is_Some (GSN.stato (GE.gestore_sn self') !! Richiesta.nome r) ->
         exists gc',
           GE.gestione_componenti self' = Some gc' /\
           cerca_componente_per_nome gc' (Richiesta.nome r) =
             Some (Componente.mk (Componente.nome c) (Componente.code_12nc c)
                     (Some (get_ultimo_sn (GE.gestore_sn self')
                                          (Richiesta.nome r) + 1))
                     (Componente.prefisso_tipo_scheda c)
                     (Componente.indicizzazione c)
                     (Richiesta.inizio_indicizzazione_prefisso r))).
Proof.
  intros g0. eexists _, _. split; [vm_compute; reflexivity |].
  eapply (crea_documento_con_componenti_stato_finale
            (sempre giugno_2025) (sempre true) (sempre true)
            "BP1" "BV1" 2 [richiesta_sensor; richiesta_relay] 5 "TECHRAIL"
            ge_iniziale).
  - cbn.
    repeat (apply NoDup_cons; split;
            [rewrite ?elem_of_cons, elem_of_nil; intros H;
             repeat destruct H as [H | H]; (discriminate H || exact H) |]).
    apply NoDup_nil_2.
  - vm_compute. reflexivity.
Defined.

(** ** The index policies *)

(** X14. The index computation never raises, at any position; with a non-empty
    list the index is always an element of the list and repeats with the
    length of the list as its period. *)
Theorem numero_indic_totale_e_ciclico :
  (forall (policy : IndexPolicy) (p : Z),
     exists n, numero_indic policy p = Ok n) /\
  (forall (L : list Z) (p : Z),
     L <> [] ->
     exists x, numero_indic (PList L) p = Ok x /\ x ∈ L /\
               numero_indic (PList L) (p + Z.of_nat (length L)) = Ok x).
Proof.
  assert (Hlista : forall (L : list Z) (p : Z), L <> [] ->
            exists x, numero_indic (PList L) p = Ok x /\ x ∈ L /\
                      numero_indic (PList L) (p + Z.of_nat (length L)) = Ok x).
  { intros L p HL. unfold numero_indic.
    assert (Hlen : 0 < Z.of_nat (length L))
      by (destruct L; [congruence | simpl; lia]).
    destruct (Z.ltb_spec 0 (Z.of_nat (length L))) as [_ | ?]; [| lia].
    destruct (getitem_in_range L (p mod Z.of_nat (length L)))
      as (x & Hx & Hget); [apply Z.mod_pos_bound; lia |].
    exists x. split; [exact Hget |]. split.
    - eapply list_elem_of_lookup_2; eassumption.
    - rewrite <- Hget. f_equal.
      rewrite <- (Z.mul_1_l (Z.of_nat (length L))) at 1.
      apply Z.mod_add. lia. }
  split; [| exact Hlista].
  intros [| o | L] p; [eexists; reflexivity | eexists; reflexivity |].
  destruct L as [| x L]; [eexists; reflexivity |].
  destruct (Hlista (x :: L) p ltac:(discriminate)) as (y & Hy & _).
  now exists y.
Qed.

(** ** The stored part code after a run *)

(** X15. After a run with distinct component names that has returned, the
    allocator keeps the part code of a component only if the run made
    exactly one allocation for it: from the second allocation on the
    stored code is [None], whatever code the run was given. *)
Theorem crea_documento_con_componenti_codice_salvato
    (now : nat -> datetime) (disco_stato disco_componenti : nat -> bool)
    (bolla_produzione bolla_vendita : string) (numero_bus : Z)
    (componenti : list Richiesta.t) (bus_iniziale : Z) (fornitore : string)
    (self : GE.t)
    (Hnd : NoDup (Richiesta.nome <$> componenti))
    (righe : list Riga.t) (self' : GE.t)
    (Hrun : crea_documento_con_componenti now disco_stato disco_componenti
              bolla_produzione bolla_vendita numero_bus componenti
              bus_iniziale fornitore self = (Ok righe, self')) :
  let g0 := GE.gestore_sn self in
  forall r, r ∈ componenti ->
    let k := (Z.to_nat numero_bus
              * Z.to_nat (default 1%Z (Richiesta.quantita r)))%nat in
    (k = 1%nat ->
     Stato.code_12nc <$>
       GSN.stato (GE.gestore_sn self') !! Richiesta.nome r
     = Some (CompInfo.code_12nc (calcolato g0 r))) /\
    ((2 <= k)%nat ->
     Stato.code_12nc <$>
       GSN.stato (GE.gestore_sn self') !! Richiesta.nome r
     = Some None).
Proof.
  intros g0.
  destruct (crea_documento_con_componenti_controlli _ _ _ _ _ _ _ _ _ _ _ _
              Hrun) as (Hbp & Hbv & Hn & Hne & Hcod).
  destruct (crea_documento_con_componenti_fasi now disco_stato
              disco_componenti bolla_produzione bolla_vendita numero_bus
              componenti bus_iniziale fornitore self Hbp Hbv Hn Hne Hcod Hnd)
    as (righe1 & primo' & s2 & self1 & Hrun1 & Hwb & _ & Hdesc & _ & _ & Hg
        & (righe' & Hwb' & Hcodice)).
  rewrite Hrun in Hrun1. injection Hrun1 as <- <-.
  fold g0 in Hdesc, Hcodice.
  rewrite Hwb in Hwb'. injection Hwb' as <-.
  assert (Hnd' : NoDup (CompInfo.nome <$> (calcolato g0 <$> componenti))).
  { rewrite <- list_fmap_compose. exact Hnd. }
  rewrite Hg.
  intros r Hr k.
  assert (Hci : calcolato g0 r ∈ calcolato g0 <$> componenti)
    by now apply list_elem_of_fmap_2.
  assert (Hk : length (righe_di (Richiesta.nome r) righe) = k).
  { pose proof (conta_nome _ (calcolato g0 r) Hnd' Hci) as Hcount.
    change (CompInfo.nome (calcolato g0 r)) with (Richiesta.nome r)
      in Hcount.
    rewrite length_righe_di, Hdesc, conta_bus, length_range, Hcount.
    reflexivity. }
  destruct (Hcodice _ Hci) as [Huno Hdue].
  change (CompInfo.nome (calcolato g0 r)) with (Richiesta.nome r)
    in Huno, Hdue.
  rewrite Hk in Huno, Hdue. now split.
Qed.

Lemma crea_documento_con_componenti_codice_salvato_witness :
  let g0 := GE.gestore_sn ge_iniziale in
  exists (righe : list Riga.t) (self' : GE.t),
    crea_documento_con_componenti (sempre giugno_2025) (sempre true) (sempre true)
      "BP1" "BV1" 2 [richiesta_sensor; richiesta_relay] 5
      "TECHRAIL" ge_iniziale = (Ok righe, self') /\
    forall r, r ∈ [richiesta_sensor; richiesta_relay] ->
      let k := (Z.to_nat 2
                * Z.to_nat (default 1%Z (Richiesta.quantita r)))%nat in
      (k = 1%nat ->
       Stato.code_12nc <$>
         GSN.stato (GE.gestore_sn self') !! Richiesta.nome r
       = Some (CompInfo.code_12nc (calcolato g0 r))) /\
      ((2 <= k)%nat ->
       Stato.code_12nc <$>
         GSN.stato (GE.gestore_sn self') !! Richiesta.nome r
       = Some None).
Proof.
  intros g0. eexists _, _. split; [vm_compute; reflexivity |].
  eapply (crea_documento_con_componenti_codice_salvato
            (sempre giugno_2025) (sempre true) (sempre true)
            "BP1" "BV1" 2 [richiesta_sensor; richiesta_relay] 5 "TECHRAIL"
            ge_iniziale).
  - cbn.
    repeat (apply NoDup_cons; split;
            [rewrite ?elem_of_cons, elem_of_nil; intros H;
             repeat destruct H as [H | H]; (discriminate H || exact H) |]).
    apply NoDup_nil_2.
  - vm_compute. reflexivity.
Defined.
